(** * gifsplit: the frame export and still-image encoding pipeline

    A shallow embedding of [src/gifsplit.c] (the encoder [write_image] and
    the driver [main]) together with the properties its specification
    states about them.

    The C code talks to three external parties: the C library (files,
    [malloc], [getopt], formatted output), libpng (the still-image writer)
    and libgifsplit (the frame source).  None of them is part of the
    program; each one is represented by what the program can observe of it:
    an oracle record for the answers it gives and a log for the calls it
    receives. *)

From Stdlib Require Import Ascii.
From stdpp Require Import base numbers list strings gmap.

Local Open Scope Z_scope.

(** * Part I: the program *)

(** ** C integers *)

Module CInt.

Definition INT_MIN : Z := - 2 ^ 31.
Definition INT_MAX : Z := 2 ^ 31 - 1.

Definition in_int (z : Z) : Prop := INT_MIN <= z <= INT_MAX.

(** The value a 32-bit two's complement [int] holds after an arithmetic
    result [z] is stored in it. *)
Definition wrap_int (z : Z) : Z := (z + 2 ^ 31) mod 2 ^ 32 - 2 ^ 31.

(** Conversion of an [int] to the 64-bit unsigned [size_t]. *)
Definition to_size_t (z : Z) : Z := z mod 2 ^ 64.

End CInt.
Export CInt.

(** ** Bit-depth rounding

    [[
        int bpp = img->ColorMap->BitsPerPixel;
        /* Round to next power of two */
        while (bpp & (bpp - 1))
            bpp++;
    ]] *)

Module BitDepth.

(** The loop test [bpp & (bpp - 1)], true when the loop goes on. *)
Definition not_pow2 (bpp : Z) : bool :=
  negb (Z.land bpp (wrap_int (bpp - 1)) =? 0).

(** The [while] loop with a budget of [2 ^ depth] iterations: [inr] is
    the value of [bpp] when the loop has ended, [inl] the value reached
    when the budget ran out first. *)
Fixpoint round_loop (depth : nat) (bpp : Z) : Z + Z :=
  match depth with
  | O => if not_pow2 bpp then inl (wrap_int (bpp + 1)) else inr bpp
  | S d =>
      match round_loop d bpp with
      | inl bpp' => round_loop d bpp'
      | inr r => inr r
      end
  end.

(** An [int] takes [2 ^ 32] values, so a budget of [2 ^ 32] iterations
    is one that no terminating run exhausts. *)
Definition round_bpp (bpp : Z) : option Z :=
  match round_loop 32 bpp with
  | inr r => Some r
  | inl _ => None
  end.

(** The specification's words for the same quantity: the next power of
    two. *)
Definition next_pow2 (b : Z) : Z := 2 ^ Z.log2_up b.

End BitDepth.
Export BitDepth.

(** ** Formatted output: [%d] and [%06d] *)

Module Printf.

Definition digit_char (d : Z) : ascii := ascii_of_nat (48 + Z.to_nat d).

(** Decimal digits of a non-negative number, most significant first, in
    front of [acc].  An [int] has at most ten of them. *)
Fixpoint utoa (fuel : nat) (n : Z) (acc : string) : string :=
  match fuel with
  | O => acc
  | S f =>
      let acc' := String (digit_char (n mod 10)) acc in
      if n / 10 =? 0 then acc' else utoa f (n / 10) acc'
  end.

Fixpoint zeros (n : nat) : string :=
  match n with
  | O => ""
  | S n' => String "0"%char (zeros n')
  end.

Definition zero_pad (width : nat) (s : string) : string :=
  zeros (width - String.length s) +:+ s.

(** [%d] *)
Definition fmt_d (n : Z) : string :=
  if n <? 0 then "-" +:+ utoa 10 (- n) "" else utoa 10 n "".

(** [%06d]: the zeros go between the sign and the digits. *)
Definition fmt_06d (n : Z) : string :=
  if n <? 0 then "-" +:+ zero_pad 5 (utoa 10 (- n) "")
  else zero_pad 6 (utoa 10 n "").

(** [snprintf(buf, size, ...)] keeps at most [size - 1] characters of
    the formatted text. *)
Definition snprintf (size : nat) (text : string) : string :=
  String.substring 0 (size - 1) text.

(** Reading a decimal numeral back, used to tell file names apart. *)
Definition digit_val (c : ascii) : Z := Z.of_nat (nat_of_ascii c) - 48.

Fixpoint atoi_from (a : Z) (s : string) : Z :=
  match s with
  | EmptyString => a
  | String c s' => atoi_from (10 * a + digit_val c) s'
  end.

End Printf.
Export Printf.

(** ** Data handed over by the frame source *)

(** A pointer that may be [NULL] is an [option]; a C array is the list of
    its elements; the pixel buffer is the list of its bytes; an [int] field
    is the integer it holds. *)

(** giflib's colour triple, which the code hands to libpng as a
    [png_color]. *)
Record GifColorType := { Red : Z; Green : Z; Blue : Z }.

(** giflib's colour table: [color_table] and [bits_per_pixel] of the
    specification. *)
Record ColorMapObject := {
  ColorCount : Z;
  BitsPerPixel : Z;
  Colors : list GifColorType
}.

(** Modelled from the spec: [libgifsplit.h], which declares
    [GifSplitImage], is not among the sources.  The record has the fields
    [write_image] and [main] read, with the meaning section 3 of the
    specification gives the Frame Record: [width], [height],
    [is_truecolor], [used_local_palette], [color_table],
    [transparent_index] with -1 for "none", [delay_time_centiseconds] and
    [pixel_buffer]. *)
Record GifSplitImage := {
  Width : Z;
  Height : Z;
  IsTruecolor : bool;
  UsedLocalColormap : bool;
  ColorMap : option ColorMapObject;
  TransparentColorIndex : Z;
  DelayTime : Z;
  RasterData : list Z
}.

(** Modelled from the spec: [libgifsplit.h], which declares
    [GifSplitInfo], is not among the sources.  The record is the Aggregate
    Metadata of section 3: [has_errors] and [loop_count]. *)
Record GifSplitInfo := { HasErrors : bool; LoopCount : Z }.

(** giflib's container handle; the code reads the screen height only. *)
Record GifFileType := { SWidth : Z; SHeight : Z }.

(** Modelled from the spec: [libgifsplit.c], which defines
    [GifSplitterReadFrame] and [GifSplitterGetInfo], is not among the
    sources.  By section 4.2 a Frame Source yields frame records until
    end-of-sequence and then its aggregate metadata; a handle is what it
    will answer: the frames successive calls of [GifSplitterReadFrame]
    return before it returns [NULL], and the result of
    [GifSplitterGetInfo]. *)
Record GifSplitHandle := {
  ReadFrame : list GifSplitImage;
  GetInfo : option GifSplitInfo
}.

(** ** libpng as the program sees it *)

Definition PNG_COLOR_TYPE_PALETTE : Z := 3.
Definition PNG_COLOR_TYPE_RGB_ALPHA : Z := 6.
Definition PNG_TRANSFORM_PACKING : Z := 4.

(** The calls libpng receives, each with the data it is handed: for an
    array argument, the elements the writer reads from it.  Row pointers
    are offsets into the frame's pixel buffer. *)
Inductive png_call :=
  | png_create_write_struct
  | png_create_info_struct
  | png_destroy_write_struct (with_info : bool)
  | png_init_io (file : string)
  | png_set_IHDR (width height bit_depth color_type : Z)
  | png_set_PLTE (palette : list GifColorType) (num_palette : Z)
  | png_set_tRNS (trans_alpha : list Z) (num_trans : Z)
  | png_set_rows (row_pointers : list Z)
  | png_write_png (transforms : Z).

(** What the environment decides during one encode call. *)
Record EncodeEnv := {
  fopen_ok : string -> bool;
  png_create_write_struct_ok : bool;
  png_create_info_struct_ok : bool;
  (** the call ends in [png_error], that is in a [longjmp] *)
  png_raises : png_call -> bool;
  (** the bytes [png_write_png] sends to the stream, given the calls made
      so far *)
  png_output : list png_call -> list Z;
  (** the bytes that reached the stream before a failing [png_write_png]
      gave up *)
  png_partial : list png_call -> list Z;
  (** what the uninitialised [trans_alpha] holds *)
  stack_junk : list Z
}.

(** ** Program state *)

Record State := {
  verbose : bool;
  (** the file system: names to contents *)
  files : gmap string (list Z);
  (** streams opened and not closed *)
  open_streams : list string;
  stdout : list string;
  stderr : list string;
  (** the calls libpng has received, oldest first *)
  png_trace : list png_call;
  (** the array [row_pointers] points to *)
  row_array : list Z
}.

Definition set_verbose (b : bool) (s : State) : State :=
  {| verbose := b; files := files s; open_streams := open_streams s;
     stdout := stdout s; stderr := stderr s; png_trace := png_trace s;
     row_array := row_array s |}.

Definition set_files (m : gmap string (list Z)) (s : State) : State :=
  {| verbose := verbose s; files := m; open_streams := open_streams s;
     stdout := stdout s; stderr := stderr s; png_trace := png_trace s;
     row_array := row_array s |}.

Definition set_open_streams (l : list string) (s : State) : State :=
  {| verbose := verbose s; files := files s; open_streams := l;
     stdout := stdout s; stderr := stderr s; png_trace := png_trace s;
     row_array := row_array s |}.

Definition set_stdout (l : list string) (s : State) : State :=
  {| verbose := verbose s; files := files s; open_streams := open_streams s;
     stdout := l; stderr := stderr s; png_trace := png_trace s;
     row_array := row_array s |}.

Definition set_stderr (l : list string) (s : State) : State :=
  {| verbose := verbose s; files := files s; open_streams := open_streams s;
     stdout := stdout s; stderr := l; png_trace := png_trace s;
     row_array := row_array s |}.

Definition set_png_trace (l : list png_call) (s : State) : State :=
  {| verbose := verbose s; files := files s; open_streams := open_streams s;
     stdout := stdout s; stderr := stderr s; png_trace := l;
     row_array := row_array s |}.

Definition set_row_array (l : list Z) (s : State) : State :=
  {| verbose := verbose s; files := files s; open_streams := open_streams s;
     stdout := stdout s; stderr := stderr s; png_trace := png_trace s;
     row_array := l |}.

(** The state a process starts in: [int verbose = 0], nothing printed,
    nothing open. *)
Definition initial_state (fs : gmap string (list Z)) : State :=
  {| verbose := false; files := fs; open_streams := []; stdout := [];
     stderr := []; png_trace := []; row_array := [] |}.

(** ** A monad for state, [longjmp] and abnormal ends *)

(** How a computation can end other than by returning: [abort()] after a
    failed [assert], behaviour the C standard leaves undefined (an access
    outside an array, a null pointer dereferenced), or a loop that never
    ends.  The code does not guard against any of them. *)
Inductive fault :=
  | row_pointers_overflow   (* a write past the end of [row_pointers] *)
  | trans_alpha_overflow    (* a write past the end of [trans_alpha] *)
  | array_overread          (* a callee reads past the end of an array *)
  | null_dereference
  | argv_overread
  | int_overflow.           (* an [int] result that does not fit an [int] *)

Inductive halt := Aborted | Undefined (what : fault) | Diverges.

Inductive result (A : Type) :=
  | Ret (a : A) (s : State)
  (** control left through [longjmp] to the pending [setjmp] *)
  | Jump (s : State)
  | Halt (h : halt) (s : State).
Arguments Ret {A} a s.
Arguments Jump {A} s.
Arguments Halt {A} h s.

Definition M (A : Type) : Type := State -> result A.

Definition ret {A} (a : A) : M A := fun s => Ret a s.

Definition bind {A B} (m : M A) (k : A -> M B) : M B :=
  fun s =>
    match m s with
    | Ret a s' => k a s'
    | Jump s' => Jump s'
    | Halt h s' => Halt h s'
    end.

Notation "x <~ m ;; k" := (bind m (fun x => k))
  (at level 100, m at next level, right associativity).
Notation "m ;;; k" := (bind m (fun _ => k))
  (at level 100, right associativity).

Definition halt_with {A} (h : halt) : M A := fun s => Halt h s.

(** [longjmp] to the pending [setjmp], and [if (setjmp(...)) handler]
    around the code [m] that follows it. *)
Definition longjmp {A} : M A := fun s => Jump s.

Definition setjmp {A} (m : M A) (handler : M A) : M A :=
  fun s =>
    match m s with
    | Jump s' => handler s'
    | r => r
    end.

Definition modify (f : State -> State) : M unit := fun s => Ret tt (f s).
Definition get {A} (f : State -> A) : M A := fun s => Ret (f s) s.

Definition state_of {A} (r : result A) : State :=
  match r with
  | Ret _ s => s
  | Jump s => s
  | Halt _ s => s
  end.

(** ** The C library *)

(** The line feed that ends a printed line. *)
Definition LF : string := String "010"%char "".

Definition print (line : string) : M unit :=
  modify (fun s => set_stdout (stdout s ++ [line]) s).

Definition eprint (line : string) : M unit :=
  modify (fun s => set_stderr (stderr s ++ [line]) s).

(** [fopen(filename, "wb")] that succeeds: the file exists and is empty. *)
Definition fopen_wb (filename : string) : M unit :=
  modify (fun s =>
    set_open_streams (filename :: open_streams s)
      (set_files (<[filename := []]> (files s)) s)).

(** A stream is modelled without its buffer: what is written through it is
    in the file at once, and [fclose] only ends the stream.  The result
    of [fclose], which [write_image] discards at both of its calls, is not
    modelled, and neither is a flush that fails at that point. *)
Definition fwrite (filename : string) (bytes : list Z) : M unit :=
  modify (fun s =>
    set_files (<[filename := default [] (files s !! filename) ++ bytes]>
                 (files s)) s).

Definition fclose (filename : string) : M unit :=
  modify (fun s =>
    set_open_streams (list_difference (open_streams s) [filename]) s).

(** [assert(p)] on a pointer. *)
Definition assert_ptr {A} (p : option A) : M A :=
  match p with
  | Some a => ret a
  | None => eprint "Assertion `img->ColorMap' failed." ;;; halt_with Aborted
  end.

(** [memset(a, c, n)] on an array that has [length a] elements; a negative
    [n] is a huge [size_t]. *)
Definition memset (a : list Z) (c : Z) (n : Z) (what : fault) : M (list Z) :=
  if decide (0 <= n <= Z.of_nat (length a))
  then ret (replicate (Z.to_nat n) c ++ drop (Z.to_nat n) a)
  else halt_with (Undefined what).

(** [a[i] = v] *)
Definition store (a : list Z) (i : Z) (v : Z) (what : fault) : M (list Z) :=
  if decide (0 <= i < Z.of_nat (length a))
  then ret (<[Z.to_nat i := v]> a)
  else halt_with (Undefined what).

(** The [n] elements a callee reads through a pointer to [a]. *)
Definition read_array {A} (a : list A) (n : Z) : M (list A) :=
  if decide (n <= Z.of_nat (length a))
  then ret (take (Z.to_nat n) a)
  else halt_with (Undefined array_overread).

(** ** The encoder *)

Definition log_call (c : png_call) : M unit :=
  modify (fun s => set_png_trace (png_trace s ++ [c]) s).

(** The calls made between the states [s] and [s']. *)
Definition calls_since (s s' : State) : list png_call :=
  drop (length (png_trace s)) (png_trace s').

(** A call into libpng made after [setjmp]. *)
Definition png (E : EncodeEnv) (c : png_call) : M unit :=
  log_call c ;;;
  if png_raises E c then longjmp else ret tt.

(** [png_write_png]: the only call that sends bytes to the stream. *)
Definition do_png_write_png (E : EncodeEnv) (filename : string)
    (transforms : Z) : M unit :=
  let c := png_write_png transforms in
  log_call c ;;;
  calls <~ get png_trace ;;
  if png_raises E c
  then fwrite filename (png_partial E calls) ;;; longjmp
  else fwrite filename (png_output E calls).

(** [[
        png_byte trans_alpha[256];
        memset(trans_alpha, 255, img->TransparentColorIndex);
        trans_alpha[img->TransparentColorIndex] = 0;
    ]] *)
Definition trans_alpha_array (E : EncodeEnv) : list Z :=
  take 256 (stack_junk E ++ replicate 256 0).

Definition build_trans_alpha (E : EncodeEnv) (k : Z) : M (list Z) :=
  a <~ memset (trans_alpha_array E) 255 k trans_alpha_overflow ;;
  store a k 0 trans_alpha_overflow.

(** [[
        png_bytep p = img->RasterData;
        for (int i = 0; i < img->Height; i++) {
            row_pointers[i] = p;
            p += stride;
        }
    ]]
    [n] is the number of iterations left; [i < img->Height] keeps [i + 1]
    an [int].  A row pointer is the offset of the row from
    [img->RasterData], an integer: the loop's writes to [row_pointers] are
    followed, the extent of the pixel buffer is not. *)
Fixpoint fill_rows (n : nat) (i p stride : Z) : M unit :=
  match n with
  | O => ret tt
  | S n' =>
      rows <~ get row_array ;;
      rows' <~ store rows i p row_pointers_overflow ;;
      modify (set_row_array rows') ;;;
      fill_rows n' (i + 1) (p + stride) stride
  end.

(** The part of [write_image] that runs under the [setjmp], in two
    pieces.  The first one is [png_init_io] and the [if (img->IsTruecolor)]
    statement; it yields [stride].  In [stride = 4 * img->Width] the
    product is one of two [int]s, converted to [size_t] afterwards: a
    product that does not fit an [int] is undefined, a negative one
    becomes a huge stride. *)
Definition write_header (E : EncodeEnv) (img : GifSplitImage)
    (filename : string) : M Z :=
  png E (png_init_io filename) ;;;
  if IsTruecolor img then
    png E (png_set_IHDR (Width img) (Height img) 8
             PNG_COLOR_TYPE_RGB_ALPHA) ;;;
    if decide (INT_MIN <= 4 * Width img <= INT_MAX)
    then ret (to_size_t (4 * Width img))
    else halt_with (Undefined int_overflow)
  else
    cm <~ assert_ptr (ColorMap img) ;;
    bpp <~ match round_bpp (BitsPerPixel cm) with
           | Some r => ret r
           | None => halt_with Diverges
           end ;;
    png E (png_set_IHDR (Width img) (Height img) bpp
             PNG_COLOR_TYPE_PALETTE) ;;;
    palette <~ read_array (Colors cm) (ColorCount cm) ;;
    png E (png_set_PLTE palette (ColorCount cm)) ;;;
    (if decide (TransparentColorIndex img = -1) then ret tt
     else
       trans_alpha <~ build_trans_alpha E (TransparentColorIndex img) ;;
       let num_trans := wrap_int (TransparentColorIndex img + 1) in
       table <~ read_array trans_alpha num_trans ;;
       png E (png_set_tRNS table num_trans)) ;;;
    ret (to_size_t (Width img)).

(** The second piece: the row pointers, the write and the clean-up. *)
Definition write_rows (E : EncodeEnv) (img : GifSplitImage)
    (filename : string) (stride : Z) : M bool :=
  fill_rows (Z.to_nat (Height img)) 0 0 stride ;;;
  rows <~ get row_array ;;
  presented <~ read_array rows (Height img) ;;
  png E (png_set_rows presented) ;;;
  do_png_write_png E filename
    (if IsTruecolor img then 0 else PNG_TRANSFORM_PACKING) ;;;
  log_call (png_destroy_write_struct true) ;;;
  fclose filename ;;;
  ret true.

Definition write_image_body (E : EncodeEnv) (img : GifSplitImage)
    (filename : string) : M bool :=
  stride <~ write_header E img filename ;;
  write_rows E img filename stride.

(** [[
    static bool write_image(GifSplitImage * img, const char * filename,
                            png_bytepp row_pointers)
    ]]
    The array behind [row_pointers] is [row_array] of the state. *)
Definition write_image (E : EncodeEnv) (img : GifSplitImage)
    (filename : string) : M bool :=
  if negb (fopen_ok E filename) then ret false
  else
    fopen_wb filename ;;;
    log_call png_create_write_struct ;;;
    if negb (png_create_write_struct_ok E) then ret false
    else
      log_call png_create_info_struct ;;;
      if negb (png_create_info_struct_ok E)
      then log_call (png_destroy_write_struct false) ;;; ret false
      else
        setjmp
          (write_image_body E img filename)
          (eprint ("libpng returned an error" +:+ LF) ;;;
           log_call (png_destroy_write_struct true) ;;;
           fclose filename ;;;
           ret false).

(** ** The driver *)

(** What the environment decides during one run of [main]. *)
Record RunEnv := {
  argv : list string;
  (** the option characters successive calls of [getopt] return before it
      returns -1, and [optind] at that point; what [getopt] itself prints
      about an unknown option is left out *)
  getopt_returns : list ascii;
  optind : Z;
  malloc_filename_ok : bool;
  (** [DGifOpenFileHandle(0)] *)
  DGifOpenFileHandle : option GifFileType;
  DGifOpenFileName : string -> option GifFileType;
  GifSplitterOpen : GifFileType -> option GifSplitHandle;
  malloc_rows_ok : bool;
  (** what freshly allocated memory holds *)
  heap_junk : list Z;
  (** the environment of the encode call for each frame number *)
  encode_env : Z -> EncodeEnv
}.

Definition PTRDIFF_MAX : Z := 2 ^ 63 - 1.

(** [if (!verbose) return; ... vfprintf(stderr, ...)] *)
Definition dbgprintf (text : string) : M unit :=
  v <~ get verbose ;;
  if v then eprint text else ret tt.

Definition usage (argv0 : string) : M unit :=
  eprint ("Usage: " +:+ argv0 +:+ " [-v] input.gif output_base" +:+ LF).

(** [[
    while ((opt = getopt(argc, argv, "v")) != -1) {
        switch (opt) {
        case 'v': verbose = 1; break;
        default: usage(argv[0]); return 1;
        }
    }
    ]]
    [Some code] when [main] has returned [code]. *)
Fixpoint option_loop (R : RunEnv) (opts : list ascii) : M (option Z) :=
  match opts with
  | [] => ret None
  | opt :: rest =>
      if decide (opt = "v"%char)
      then modify (set_verbose true) ;;; option_loop R rest
      else usage (default "" (argv R !! 0%nat)) ;;; ret (Some 1)
  end.

(** [argv[i]] *)
Definition arg (R : RunEnv) (i : Z) : M string :=
  if decide (0 <= i)
  then match argv R !! Z.to_nat i with
       | Some a => ret a
       | None => halt_with (Undefined argv_overread)
       end
  else halt_with (Undefined argv_overread).

(** The [malloc] of [gif->SHeight] row pointers of eight bytes each: the
    size is computed in [size_t]; a request above [PTRDIFF_MAX] is never
    granted.  The result is the array of the pointers that fit in. *)
Definition rows_request (gif : GifFileType) : Z :=
  to_size_t (8 * to_size_t (SHeight gif)).

Definition malloc_rows (R : RunEnv) (gif : GifFileType) : option (list Z) :=
  if malloc_rows_ok R && (rows_request gif <=? PTRDIFF_MAX)
  then let n := Z.to_nat (rows_request gif / 8) in
       Some (take n (heap_junk R ++ replicate n 0))
  else None.

(** [snprintf(output_filename, fn_len, "%s%06d.png", output_base, frame)] *)
Definition output_name (output_base : string) (fn_len : nat) (frame : Z)
    : string :=
  snprintf fn_len (output_base +:+ fmt_06d frame +:+ ".png").

(** [[
    while ((img = GifSplitterReadFrame(handle))) { ... frame++; }
    ]]
    [Some code] when [main] has returned [code] from inside the loop;
    [frame] is an [int], and [frame++] past [INT_MAX] is undefined. *)
Fixpoint frame_loop (R : RunEnv) (output_base : string) (fn_len : nat)
    (frames : list GifSplitImage) (frame : Z) : M (option Z) :=
  match frames with
  | [] => ret None
  | img :: rest =>
      dbgprintf ("Read frame " +:+ fmt_d frame +:+ " (truecolor="
                 +:+ fmt_d (Z.b2z (IsTruecolor img)) +:+ ", cmap="
                 +:+ fmt_d (Z.b2z (UsedLocalColormap img)) +:+ ")"
                 +:+ LF) ;;;
      let output_filename := output_name output_base fn_len frame in
      ok <~ write_image (encode_env R frame) img output_filename ;;
      if negb ok
      then eprint ("Failed to write to " +:+ output_filename +:+ LF) ;;;
           ret (Some 1)
      else print (fmt_d frame +:+ " delay=" +:+ fmt_d (DelayTime img)
                  +:+ LF) ;;;
           if decide (frame + 1 <= INT_MAX)
           then frame_loop R output_base fn_len rest (frame + 1)
           else halt_with (Undefined int_overflow)
  end.

(** [[
    info = GifSplitterGetInfo(handle);
    if (info->HasErrors) { ...; return 1; }
    if (info) printf("loops=%d\n", info->LoopCount);
    ...
    return 0;
    ]] *)
Definition end_of_run (handle : GifSplitHandle) : M Z :=
  let info := GetInfo handle in
  match info with
  | None => halt_with (Undefined null_dereference)
  | Some i =>
      if HasErrors i
      then eprint ("Error while processing input gif" +:+ LF) ;;; ret 1
      else
        match info with
        | Some i' => print ("loops=" +:+ fmt_d (LoopCount i') +:+ LF)
        | None => ret tt
        end ;;;
        ret 0
  end.

(** [main] from the frame loop on. *)
Definition split_frames (R : RunEnv) (handle : GifSplitHandle)
    (output_base : string) (fn_len : nat) : M Z :=
  early <~ frame_loop R output_base fn_len (ReadFrame handle) 0 ;;
  match early with
  | Some code => ret code
  | None => end_of_run handle
  end.

(** [int main(int argc, char **argv)]; the result is the exit status. *)
Definition main (R : RunEnv) : M Z :=
  early <~ option_loop R (getopt_returns R) ;;
  match early with
  | Some code => ret code
  | None =>
      if decide (optind R = Z.of_nat (length (argv R)) - 2) then
        in_filename <~ arg R (optind R) ;;
        output_base <~ arg R (optind R + 1) ;;
        let fn_len := (String.length output_base + 64)%nat in
        if negb (malloc_filename_ok R)
        then eprint ("Out of memory" +:+ LF) ;;; ret 1
        else
          dbgprintf ("Opening " +:+ in_filename +:+ "..." +:+ LF) ;;;
          match (if decide (in_filename = "-") then DGifOpenFileHandle R
                 else DGifOpenFileName R in_filename) with
          | None =>
              eprint ("Failed to open " +:+ in_filename +:+ LF) ;;; ret 1
          | Some gif =>
              match GifSplitterOpen R gif with
              | None =>
                  eprint ("Failed to greate GIF splitter handle" +:+ LF) ;;;
                  ret 1
              | Some handle =>
                  match malloc_rows R gif with
                  | None => eprint ("Out of memory" +:+ LF) ;;; ret 1
                  | Some rows =>
                      modify (set_row_array rows) ;;;
                      split_frames R handle output_base fn_len
                  end
              end
          end
      else
        eprint ("Expected 2 arguments after options" +:+ LF) ;;; ret 1
  end.

(** ** Vocabulary for statements about runs *)

(** The run gets as far as the frame loop: the options are all [-v], two
    arguments follow them, every allocation is granted and the container
    opens.  [output_base] is the second argument, [handle] the splitter
    and [rows] the scratch array. *)
Definition run_starts (R : RunEnv) (output_base : string)
    (handle : GifSplitHandle) (rows : list Z) : Prop :=
  Forall (fun opt => opt = "v"%char) (getopt_returns R) /\
  optind R = Z.of_nat (length (argv R)) - 2 /\
  0 <= optind R /\
  malloc_filename_ok R = true /\
  exists in_filename gif,
    argv R !! Z.to_nat (optind R) = Some in_filename /\
    argv R !! Z.to_nat (optind R + 1) = Some output_base /\
    (if decide (in_filename = "-") then DGifOpenFileHandle R
     else DGifOpenFileName R in_filename) = Some gif /\
    GifSplitterOpen R gif = Some handle /\
    malloc_rows R gif = Some rows.

(** The run gets as far as the allocation of the scratch array: as
    [run_starts], short of that allocation.  [gif] is the container. *)
Definition run_opens (R : RunEnv) (output_base : string)
    (gif : GifFileType) (handle : GifSplitHandle) : Prop :=
  Forall (fun opt => opt = "v"%char) (getopt_returns R) /\
  optind R = Z.of_nat (length (argv R)) - 2 /\
  0 <= optind R /\
  malloc_filename_ok R = true /\
  exists in_filename,
    argv R !! Z.to_nat (optind R) = Some in_filename /\
    argv R !! Z.to_nat (optind R + 1) = Some output_base /\
    (if decide (in_filename = "-") then DGifOpenFileHandle R
     else DGifOpenFileName R in_filename) = Some gif /\
    GifSplitterOpen R gif = Some handle.

(** The command line of [R] with one more [-v] in front: [getopt] reports
    one more [v] and stops one argument later. *)
Definition add_v (R : RunEnv) : RunEnv :=
  {| argv := match argv R with
             | argv0 :: rest => argv0 :: "-v" :: rest
             | [] => ["-v"]
             end;
     getopt_returns := "v"%char :: getopt_returns R;
     optind := optind R + 1;
     malloc_filename_ok := malloc_filename_ok R;
     DGifOpenFileHandle := DGifOpenFileHandle R;
     DGifOpenFileName := DGifOpenFileName R;
     GifSplitterOpen := GifSplitterOpen R;
     malloc_rows_ok := malloc_rows_ok R;
     heap_junk := heap_junk R;
     encode_env := encode_env R |}.

(** Two states that agree on everything but [verbose] and the standard
    error, and two results that agree up to that. *)
Definition quiet_eq (s1 s2 : State) : Prop :=
  files s1 = files s2 /\ open_streams s1 = open_streams s2 /\
  stdout s1 = stdout s2 /\ png_trace s1 = png_trace s2 /\
  row_array s1 = row_array s2.

Definition same_outcome {A} (r1 r2 : result A) : Prop :=
  match r1, r2 with
  | Ret a1 s1, Ret a2 s2 => a1 = a2 /\ quiet_eq s1 s2
  | Jump s1, Jump s2 => quiet_eq s1 s2
  | Halt h1 s1, Halt h2 s2 => h1 = h2 /\ quiet_eq s1 s2
  | _, _ => False
  end.

(** A computation that does not see [verbose] nor the standard error,
    other than to print on the latter. *)
Definition blind {A} (m : M A) : Prop :=
  forall s1 s2, quiet_eq s1 s2 -> same_outcome (m s1) (m s2).

(** The file name [main] builds for frame number [i], in its buffer of
    [strlen(output_base) + 64] bytes. *)
Definition frame_name (output_base : string) (i : Z) : string :=
  output_name output_base (String.length output_base + 64) i.



(** ** Vocabulary for statements about encode calls *)

(** The kinds of libpng call the statements single out. *)
Definition is_IHDR (c : png_call) : bool :=
  match c with png_set_IHDR _ _ _ _ => true | _ => false end.

Definition is_PLTE (c : png_call) : bool :=
  match c with png_set_PLTE _ _ => true | _ => false end.

Definition is_tRNS (c : png_call) : bool :=
  match c with png_set_tRNS _ _ => true | _ => false end.

Definition is_rows (c : png_call) : bool :=
  match c with png_set_rows _ => true | _ => false end.

(** The calls of one kind that an encode call makes, in order, however
    the call ends. *)
Definition calls_of_kind (kind : png_call -> bool) (E : EncodeEnv)
    (img : GifSplitImage) (filename : string) (s : State) : list png_call :=
  List.filter kind (calls_since s (state_of (write_image E img filename s))).

(** The call gets as far as the [if (img->IsTruecolor)] statement: the
    destination opens, the two allocations are granted and [png_init_io]
    raises no error. *)
Definition reaches_header (E : EncodeEnv) (filename : string) : Prop :=
  fopen_ok E filename = true /\
  png_create_write_struct_ok E = true /\
  png_create_info_struct_ok E = true /\
  png_raises E (png_init_io filename) = false.

(** The call for an indexed frame gets as far as [png_set_PLTE]: the frame
    has the colour table [cm], the rounding loop ends, libpng accepts the
    header, and the table holds the entries it counts. *)
Definition reaches_palette (E : EncodeEnv) (img : GifSplitImage)
    (filename : string) (cm : ColorMapObject) : Prop :=
  reaches_header E filename /\
  IsTruecolor img = false /\
  ColorMap img = Some cm /\
  (exists bpp,
     round_bpp (BitsPerPixel cm) = Some bpp /\
     png_raises E (png_set_IHDR (Width img) (Height img) bpp
                     PNG_COLOR_TYPE_PALETTE) = false) /\
  ColorCount cm <= Z.of_nat (length (Colors cm)).

(** It gets as far as [if (img->TransparentColorIndex != -1)]: libpng
    accepts the palette as well. *)
Definition reaches_transparency (E : EncodeEnv) (img : GifSplitImage)
    (filename : string) (cm : ColorMapObject) : Prop :=
  reaches_palette E img filename cm /\
  png_raises E (png_set_PLTE (take (Z.to_nat (ColorCount cm)) (Colors cm))
                  (ColorCount cm)) = false.

(** The call gets as far as the row loop: for a truecolor frame libpng
    accepts the header and the stride is an [int]; for an indexed frame
    the transparent index is absent, or it is a byte and libpng accepts
    the transparency table. *)
Definition reaches_rows (E : EncodeEnv) (img : GifSplitImage)
    (filename : string) : Prop :=
  if IsTruecolor img then
    reaches_header E filename /\
    png_raises E (png_set_IHDR (Width img) (Height img) 8
                    PNG_COLOR_TYPE_RGB_ALPHA) = false /\
    in_int (4 * Width img)
  else
    exists cm,
      reaches_transparency E img filename cm /\
      (TransparentColorIndex img = -1 \/
       0 <= TransparentColorIndex img <= 255 /\
       png_raises E
         (png_set_tRNS
            (replicate (Z.to_nat (TransparentColorIndex img)) 255 ++ [0])
            (TransparentColorIndex img + 1)) = false).

(** The row pointers of a frame of [height] rows: offsets 0, [stride],
    [2 * stride], ... into the pixel buffer. *)
Definition row_offsets (stride height : Z) : list Z :=
  map (fun i : nat => Z.of_nat i * stride) (seq 0 (Z.to_nat height)).

(** The [stride] bytes of the pixel buffer that the row pointer at offset
    [r] points to. *)
Definition row_at (img : GifSplitImage) (stride r : Z) : list Z :=
  take (Z.to_nat stride) (drop (Z.to_nat r) (RasterData img)).

(** The frame [img] with another colour table and transparent index. *)
Definition with_color_table (img : GifSplitImage)
    (cm : option ColorMapObject) (k : Z) : GifSplitImage :=
  {| Width := Width img; Height := Height img;
     IsTruecolor := IsTruecolor img;
     UsedLocalColormap := UsedLocalColormap img;
     ColorMap := cm; TransparentColorIndex := k;
     DelayTime := DelayTime img; RasterData := RasterData img |}.

(** The line printed after frame [i]. *)
Definition delay_line (i : Z) (img : GifSplitImage) : string :=
  fmt_d i +:+ " delay=" +:+ fmt_d (DelayTime img) +:+ LF.

(** ** Sample inputs *)

Module Samples.

(** An environment in which nothing fails. *)
Definition quiet : EncodeEnv :=
  {| fopen_ok := fun _ => true;
     png_create_write_struct_ok := true;
     png_create_info_struct_ok := true;
     png_raises := fun _ => false;
     png_output := fun calls => [137; 80; 78; 71; Z.of_nat (length calls)];
     png_partial := fun _ => [137; 80];
     stack_junk := [7; 7; 7; 7; 7; 7] |}.

(** The destination cannot be opened. *)
Definition unwritable : EncodeEnv :=
  {| fopen_ok := fun _ => false;
     png_create_write_struct_ok := true;
     png_create_info_struct_ok := true;
     png_raises := fun _ => false;
     png_output := png_output quiet;
     png_partial := png_partial quiet;
     stack_junk := [] |}.

(** [png_create_write_struct] returns [NULL]. *)
Definition no_memory : EncodeEnv :=
  {| fopen_ok := fun _ => true;
     png_create_write_struct_ok := false;
     png_create_info_struct_ok := true;
     png_raises := fun _ => false;
     png_output := png_output quiet;
     png_partial := png_partial quiet;
     stack_junk := [] |}.

(** libpng gives up in the middle of [png_write_png]. *)
Definition failing_write : EncodeEnv :=
  {| fopen_ok := fun _ => true;
     png_create_write_struct_ok := true;
     png_create_info_struct_ok := true;
     png_raises := fun c =>
       match c with png_write_png _ => true | _ => false end;
     png_output := png_output quiet;
     png_partial := png_partial quiet;
     stack_junk := [] |}.

Definition palette4 : ColorMapObject :=
  {| ColorCount := 4; BitsPerPixel := 2;
     Colors := [ {| Red := 1; Green := 2; Blue := 3 |};
                 {| Red := 4; Green := 5; Blue := 6 |};
                 {| Red := 7; Green := 8; Blue := 9 |};
                 {| Red := 0; Green := 0; Blue := 0 |} ] |}.

(** A 2 x 2 indexed frame whose colour 1 is transparent. *)
Definition indexed_frame : GifSplitImage :=
  {| Width := 2; Height := 2; IsTruecolor := false;
     UsedLocalColormap := false; ColorMap := Some palette4;
     TransparentColorIndex := 1; DelayTime := 10;
     RasterData := [0; 1; 2; 1] |}.

(** The same frame without a transparent colour. *)
Definition opaque_frame : GifSplitImage :=
  {| Width := 2; Height := 2; IsTruecolor := false;
     UsedLocalColormap := false; ColorMap := Some palette4;
     TransparentColorIndex := -1; DelayTime := 10;
     RasterData := [0; 1; 2; 1] |}.

(** An indexed frame that has no colour table. *)
Definition headless_frame : GifSplitImage :=
  {| Width := 2; Height := 2; IsTruecolor := false;
     UsedLocalColormap := false; ColorMap := None;
     TransparentColorIndex := -1; DelayTime := 10;
     RasterData := [0; 1; 2; 1] |}.

(** The 2 x 2 truecolor frame whose pixels are all (10, 20, 30, 255). *)
Definition truecolor_frame : GifSplitImage :=
  {| Width := 2; Height := 2; IsTruecolor := true;
     UsedLocalColormap := false; ColorMap := None;
     TransparentColorIndex := -1; DelayTime := 7;
     RasterData := [10; 20; 30; 255; 10; 20; 30; 255;
                    10; 20; 30; 255; 10; 20; 30; 255] |}.

(** An indexed frame whose transparent index is past the last byte
    value. *)
Definition wild_index_frame : GifSplitImage :=
  {| Width := 2; Height := 2; IsTruecolor := false;
     UsedLocalColormap := false; ColorMap := Some palette4;
     TransparentColorIndex := 256; DelayTime := 10;
     RasterData := [0; 1; 2; 1] |}.

(** A frame taller than the screen of [small_gif]. *)
Definition tall_frame : GifSplitImage :=
  {| Width := 1; Height := 3; IsTruecolor := true;
     UsedLocalColormap := false; ColorMap := None;
     TransparentColorIndex := -1; DelayTime := 0;
     RasterData := [1; 2; 3; 4; 1; 2; 3; 4; 1; 2; 3; 4] |}.

Definition small_gif : GifFileType := {| SWidth := 2; SHeight := 2 |}.

(** A state with a scratch array of three stale row pointers. *)
Definition stale : State :=
  set_row_array [5; 5; 5] (initial_state ∅).

(** A run over [frames] that ends with [info]. *)
Definition run_of (frames : list GifSplitImage)
    (info : option GifSplitInfo) : RunEnv :=
  {| argv := ["gifsplit"; "in.gif"; "out"];
     getopt_returns := [];
     optind := 1;
     malloc_filename_ok := true;
     DGifOpenFileHandle := None;
     DGifOpenFileName := fun _ => Some small_gif;
     GifSplitterOpen := fun _ =>
       Some {| ReadFrame := frames; GetInfo := info |};
     malloc_rows_ok := true;
     heap_junk := [99];
     encode_env := fun _ => quiet |}.

(** [gifsplit -v -h in.gif out]: [getopt] reports [v], then [?] for the
    option it does not know. *)
Definition help_run : RunEnv :=
  {| argv := ["gifsplit"; "-v"; "-h"; "in.gif"; "out"];
     getopt_returns := ["v"%char; "?"%char];
     optind := 3;
     malloc_filename_ok := true;
     DGifOpenFileHandle := None;
     DGifOpenFileName := fun _ => Some small_gif;
     GifSplitterOpen := fun _ => Some {| ReadFrame := []; GetInfo := None |};
     malloc_rows_ok := true;
     heap_junk := [];
     encode_env := fun _ => quiet |}.

(** [gifsplit in.gif]: one argument too few. *)
Definition one_argument_run : RunEnv :=
  {| argv := ["gifsplit"; "in.gif"];
     getopt_returns := [];
     optind := 1;
     malloc_filename_ok := true;
     DGifOpenFileHandle := None;
     DGifOpenFileName := fun _ => Some small_gif;
     GifSplitterOpen := fun _ => Some {| ReadFrame := []; GetInfo := None |};
     malloc_rows_ok := true;
     heap_junk := [];
     encode_env := fun _ => quiet |}.

(** [gifsplit - out] with a standard input that is no container. *)
Definition closed_stdin_run : RunEnv :=
  {| argv := ["gifsplit"; "-"; "out"];
     getopt_returns := [];
     optind := 1;
     malloc_filename_ok := true;
     DGifOpenFileHandle := None;
     DGifOpenFileName := fun _ => Some small_gif;
     GifSplitterOpen := fun _ => Some {| ReadFrame := []; GetInfo := None |};
     malloc_rows_ok := true;
     heap_junk := [];
     encode_env := fun _ => quiet |}.

(** A container that claims a negative screen height. *)
Definition negative_gif : GifFileType := {| SWidth := 2; SHeight := -1 |}.

Definition negative_height_run : RunEnv :=
  {| argv := ["gifsplit"; "in.gif"; "out"];
     getopt_returns := [];
     optind := 1;
     malloc_filename_ok := true;
     DGifOpenFileHandle := None;
     DGifOpenFileName := fun _ => Some negative_gif;
     GifSplitterOpen := fun _ =>
       Some {| ReadFrame := [truecolor_frame]; GetInfo := None |};
     malloc_rows_ok := true;
     heap_junk := [];
     encode_env := fun _ => quiet |}.

(** Three frames; the destination of the second cannot be opened. *)
Definition second_write_fails : RunEnv :=
  {| argv := ["gifsplit"; "in.gif"; "out"];
     getopt_returns := [];
     optind := 1;
     malloc_filename_ok := true;
     DGifOpenFileHandle := None;
     DGifOpenFileName := fun _ => Some small_gif;
     GifSplitterOpen := fun _ =>
       Some {| ReadFrame := [truecolor_frame; indexed_frame; truecolor_frame];
               GetInfo := Some {| HasErrors := false; LoopCount := 0 |} |};
     malloc_rows_ok := true;
     heap_junk := [99];
     encode_env := fun frame => if frame =? 1 then unwritable else quiet |}.

(** Two frames and a frame source without errors. *)
Definition clean_two_frames : RunEnv :=
  run_of [truecolor_frame; indexed_frame]
         (Some {| HasErrors := false; LoopCount := 3 |}).

(** Five frames, then [HasErrors]. *)
Definition five_then_errors : RunEnv :=
  run_of [indexed_frame; truecolor_frame; opaque_frame; truecolor_frame;
          indexed_frame]
         (Some {| HasErrors := true; LoopCount := 0 |}).

End Samples.

(** * Part II: properties *)

(** ** C integers *)

Lemma wrap_int_id z : in_int z -> wrap_int z = z.
Proof.
  unfold in_int, INT_MIN, INT_MAX, wrap_int. intros Hz.
  rewrite Z.mod_small; lia.
Qed.

Lemma wrap_int_range z : in_int (wrap_int z).
Proof.
  unfold in_int, INT_MIN, INT_MAX, wrap_int.
  pose proof (Z.mod_pos_bound (z + 2 ^ 31) (2 ^ 32)). lia.
Qed.

Lemma to_size_t_id z : 0 <= z < 2 ^ 64 -> to_size_t z = z.
Proof. intros Hz. unfold to_size_t. by rewrite Z.mod_small. Qed.

(** ** Bit-depth rounding *)

Example round_bpp_3 : round_bpp 3 = Some 4.
Proof. vm_compute. reflexivity. Qed.

Example round_bpp_6 : round_bpp 6 = Some 8.
Proof. vm_compute. reflexivity. Qed.

(** The loop test on a positive [int] below [2 ^ 30]: false on a power of
    two, true strictly between two consecutive ones. *)
Lemma not_pow2_power k : 0 <= k <= 30 -> not_pow2 (2 ^ k) = false.
Proof.
  intros Hk. unfold not_pow2.
  assert (Hp : 0 < 2 ^ k <= 2 ^ 30)
    by (split; [apply Z.pow_pos_nonneg; lia | apply Z.pow_le_mono_r; lia]).
  rewrite wrap_int_id by (unfold in_int, INT_MIN, INT_MAX; lia).
  replace (2 ^ k - 1) with (Z.ones k) by (rewrite Z.ones_equiv; lia).
  rewrite Z.land_ones, Z.mod_same by lia. reflexivity.
Qed.

Lemma not_pow2_between k j :
  0 <= k -> 2 ^ k < j < 2 ^ (k + 1) -> j <= INT_MAX -> not_pow2 j = true.
Proof.
  intros Hk Hj Hmax. unfold not_pow2.
  assert (Hp : 0 < 2 ^ k) by (apply Z.pow_pos_nonneg; lia).
  rewrite wrap_int_id by (unfold in_int, INT_MIN, INT_MAX in *; lia).
  assert (Hbit : forall x, 2 ^ k <= x < 2 ^ (k + 1) -> Z.testbit x k = true).
  { intros x Hx. apply Z.testbit_true; [lia|].
    replace (x / 2 ^ k) with 1; [reflexivity|].
    apply Z.div_unique with (r := x - 2 ^ k); [|lia].
    rewrite Z.pow_add_r in Hx by lia. lia. }
  apply negb_true_iff, Z.eqb_neq. intros Hzero.
  assert (Hand : Z.testbit (Z.land j (j - 1)) k = true)
    by (rewrite Z.land_spec, !Hbit by lia; reflexivity).
  rewrite Hzero, Z.bits_0 in Hand. discriminate Hand.
Qed.

(** The loop with a budget of [2 ^ depth] iterations, started at [b] below
    the first value [p] at which the test is false: it ends at [p] when
    the budget reaches that far, and has advanced by the whole budget
    otherwise. *)
Lemma round_loop_run depth : forall b p,
  0 <= b <= p -> p <= INT_MAX ->
  (forall j, b <= j < p -> not_pow2 j = true) ->
  not_pow2 p = false ->
  round_loop depth b
    = if decide (p - b < 2 ^ Z.of_nat depth) then inr p
      else inl (b + 2 ^ Z.of_nat depth).
Proof.
  induction depth as [|d IH]; intros b p Hb Hp Hgo Hstop.
  - cbn [round_loop]. change (2 ^ Z.of_nat 0) with 1.
    case_decide as Hd.
    + replace b with p by lia. by rewrite Hstop.
    + rewrite Hgo by lia.
      by rewrite wrap_int_id by (unfold in_int, INT_MIN, INT_MAX in *; lia).
  - cbn [round_loop].
    assert (Hpow : 2 ^ Z.of_nat (S d) = 2 ^ Z.of_nat d + 2 ^ Z.of_nat d)
      by (rewrite Nat2Z.inj_succ, Z.pow_succ_r; lia).
    assert (Hpos : 0 < 2 ^ Z.of_nat d) by (apply Z.pow_pos_nonneg; lia).
    rewrite (IH b p) by assumption.
    destruct (decide (p - b < 2 ^ Z.of_nat d)) as [Hnear|Hfar].
    + by rewrite decide_True by lia.
    + rewrite (IH (b + 2 ^ Z.of_nat d) p);
        [| lia | assumption | intros j Hj; apply Hgo; lia | assumption].
      destruct (decide (p - (b + 2 ^ Z.of_nat d) < 2 ^ Z.of_nat d)).
      * by rewrite decide_True by lia.
      * rewrite decide_False by lia. f_equal. lia.
Qed.

(** The loop ends on every [bits_per_pixel] from 1 to [2 ^ 30], at the
    next power of two. *)
Lemma round_bpp_total b :
  1 <= b <= 2 ^ 30 -> round_bpp b = Some (next_pow2 b).
Proof.
  intros Hb. unfold round_bpp, next_pow2.
  assert (Hlog : 0 <= Z.log2_up b <= 30).
  { split; [apply Z.log2_up_nonneg|]. apply Z.log2_up_le_pow2; lia. }
  assert (Hp : 2 ^ Z.log2_up b <= 2 ^ 30) by (apply Z.pow_le_mono_r; lia).
  assert (Hle : b <= 2 ^ Z.log2_up b).
  { destruct (decide (b = 1)) as [->|Hne]; [done|].
    apply Z.log2_up_spec. lia. }
  rewrite (round_loop_run 32 b (2 ^ Z.log2_up b)).
  - rewrite decide_True; [done|]. change (2 ^ Z.of_nat 32) with (2 ^ 32). lia.
  - lia.
  - unfold INT_MAX. lia.
  - intros j Hj.
    assert (Hb1 : 1 < b) by (destruct (decide (b = 1)) as [->|]; cbn in Hj; lia).
    pose proof (Z.log2_up_spec b Hb1) as [Hlow _].
    pose proof (Z.log2_up_pos b Hb1) as Hlog1.
    apply (not_pow2_between (Z.pred (Z.log2_up b))).
    + lia.
    + replace (Z.pred (Z.log2_up b) + 1) with (Z.log2_up b) by lia. lia.
    + unfold INT_MAX. lia.
  - by apply not_pow2_power.
Qed.

(** C1: on the indexed path the loop [while (bpp & (bpp - 1)) bpp++] ends
    for every [bits_per_pixel] from 1 to 8 and yields the next power of
    two (1 to 1, 2 to 2, 3 to 4, 4 to 4, 5 to 8, 8 to 8): one of 1, 2, 4,
    8, never below the input nor above 8; rounding the result again
    changes nothing, and a larger input never gives a smaller result. *)
Theorem round_bpp_next_power_of_two (b b' : Z) :
  1 <= b <= 8 -> b <= b' <= 8 ->
  exists r r',
    round_bpp b = Some r /\ round_bpp b' = Some r' /\
    r = next_pow2 b /\
    (r = 1 \/ r = 2 \/ r = 4 \/ r = 8) /\
    b <= r <= 8 /\
    round_bpp r = Some r /\
    r <= r' /\
    (round_bpp 1 = Some 1 /\ round_bpp 2 = Some 2 /\ round_bpp 3 = Some 4 /\
     round_bpp 4 = Some 4 /\ round_bpp 5 = Some 8 /\ round_bpp 8 = Some 8).
Proof.
  intros Hb Hb'.
  assert (Hcases : b = 1 \/ b = 2 \/ b = 3 \/ b = 4 \/ b = 5 \/ b = 6 \/
                   b = 7 \/ b = 8) by lia.
  assert (Hcases' : b' = 1 \/ b' = 2 \/ b' = 3 \/ b' = 4 \/ b' = 5 \/
                    b' = 6 \/ b' = 7 \/ b' = 8) by lia.
  destruct Hcases as [-> | [-> | [-> | [-> | [-> | [-> | [-> | ->]]]]]]];
    destruct Hcases' as [-> | [-> | [-> | [-> | [-> | [-> | [-> | ->]]]]]]];
    try lia;
    eexists _, _;
    (split; [vm_compute; reflexivity |]);
    (split; [vm_compute; reflexivity |]);
    (split; [vm_compute; reflexivity |]);
    (split; [lia |]);
    (split; [lia |]);
    (split; [vm_compute; reflexivity |]);
    (split; [lia |]);
    vm_compute; repeat split; reflexivity.
Qed.

Lemma round_bpp_next_power_of_two_witness :
  exists r r',
    round_bpp 3 = Some r /\ round_bpp 5 = Some r' /\
    r = next_pow2 3 /\
    (r = 1 \/ r = 2 \/ r = 4 \/ r = 8) /\
    3 <= r <= 8 /\
    round_bpp r = Some r /\
    r <= r' /\
    (round_bpp 1 = Some 1 /\ round_bpp 2 = Some 2 /\ round_bpp 3 = Some 4 /\
     round_bpp 4 = Some 4 /\ round_bpp 5 = Some 8 /\ round_bpp 8 = Some 8).
Proof. apply (round_bpp_next_power_of_two 3 5); lia. Defined.

(** ** The row loop *)

Lemma set_row_array_same s : set_row_array (row_array s) s = s.
Proof. by destruct s. Qed.

Lemma fill_rows_S n i p stride s :
  fill_rows (S n) i p stride s =
  if decide (0 <= i < Z.of_nat (length (row_array s)))
  then fill_rows n (i + 1) (p + stride) stride
         (set_row_array (<[Z.to_nat i := p]> (row_array s)) s)
  else Halt (Undefined row_pointers_overflow) s.
Proof.
  cbn [fill_rows]. unfold bind, get, store, modify, ret, halt_with.
  by case_decide.
Qed.

(** What the loop leaves behind: with [i + n] within the array it ends
    with entries [i .. i + n - 1] at [p], [p + stride], ...; otherwise it
    writes past the end of the array.  Entries below [i] are not
    touched, and the array is never resized. *)
Lemma fill_rows_spec n : forall i p stride s,
  0 <= i <= Z.of_nat (length (row_array s)) ->
  exists rows',
    length rows' = length (row_array s) /\
    (forall j : nat, (j < Z.to_nat i)%nat -> rows' !! j = row_array s !! j) /\
    if decide (i + Z.of_nat n <= Z.of_nat (length (row_array s)))
    then fill_rows n i p stride s = Ret tt (set_row_array rows' s) /\
         forall j : nat, (j < n)%nat ->
           rows' !! (Z.to_nat i + j)%nat = Some (p + Z.of_nat j * stride)
    else fill_rows n i p stride s =
         Halt (Undefined row_pointers_overflow) (set_row_array rows' s).
Proof.
  induction n as [|n IH]; intros i p stride s Hi.
  - exists (row_array s). split; [done|]. split; [done|].
    rewrite decide_True by lia.
    split; [by rewrite set_row_array_same | lia].
  - rewrite fill_rows_S.
    destruct (decide (0 <= i < Z.of_nat (length (row_array s)))) as [Hin|Hout].
    + set (s1 := set_row_array (<[Z.to_nat i:=p]> (row_array s)) s).
      assert (Hlen1 : length (row_array s1) = length (row_array s))
        by (subst s1; cbn; by rewrite length_insert).
      destruct (IH (i + 1) (p + stride) stride s1 ltac:(lia))
        as (rows' & Hlen & Hlow & Hrun).
      exists rows'. split; [congruence|]. split.
      * intros j Hj. rewrite Hlow by lia. subst s1; cbn.
        apply list_lookup_insert_ne. lia.
      * rewrite Hlen1 in Hrun.
        destruct (decide (i + 1 + Z.of_nat n
                          <= Z.of_nat (length (row_array s)))) as [Hfit|Hno].
        -- rewrite decide_True by lia.
           destruct Hrun as [Hrun Hval]. split; [exact Hrun|].
           intros [|j] Hj.
           ++ rewrite Hlow by lia. subst s1; cbn.
              rewrite Nat.add_0_r, list_lookup_insert_eq by lia.
              f_equal. lia.
           ++ replace (Z.to_nat i + S j)%nat
                with (Z.to_nat (i + 1) + j)%nat by lia.
              rewrite Hval by lia. f_equal. lia.
        -- rewrite decide_False by lia. exact Hrun.
    + exists (row_array s).
      split; [done|]. split; [done|].
      rewrite decide_False by lia. by rewrite set_row_array_same.
Qed.

(** The loop writes no entry from [i + n] on. *)
Lemma fill_rows_above n : forall i p stride s (j : nat),
  0 <= i -> (Z.to_nat i + n <= j)%nat ->
  row_array (state_of (fill_rows n i p stride s)) !! j = row_array s !! j.
Proof.
  induction n as [|n IH]; intros i p stride s j Hi Hj; [done|].
  rewrite fill_rows_S. case_decide; [|done].
  rewrite IH by lia. cbn. apply list_lookup_insert_ne. lia.
Qed.

Lemma row_offsets_length stride height :
  length (row_offsets stride height) = Z.to_nat height.
Proof. unfold row_offsets. by rewrite length_map, length_seq. Qed.

Lemma row_offsets_lookup stride height (i : nat) :
  (i < Z.to_nat height)%nat ->
  row_offsets stride height !! i = Some (Z.of_nat i * stride).
Proof.
  intros Hi. unfold row_offsets.
  rewrite list_lookup_fmap, lookup_seq_lt by done. reflexivity.
Qed.

(** The array after a loop that stays within it: the offsets of the rows,
    then what the array held from [height] on. *)
Lemma fill_rows_exact height stride s :
  height <= Z.of_nat (length (row_array s)) ->
  fill_rows (Z.to_nat height) 0 0 stride s
    = Ret tt (set_row_array
                (row_offsets stride height
                 ++ drop (Z.to_nat height) (row_array s)) s).
Proof.
  intros Hfit.
  destruct (fill_rows_spec (Z.to_nat height) 0 0 stride s ltac:(lia))
    as (rows' & Hlen & _ & Hrun).
  rewrite decide_True in Hrun by lia. destruct Hrun as [Hrun Hval].
  pose proof (fill_rows_above (Z.to_nat height) 0 0 stride s) as Habove.
  rewrite Hrun in *. cbn [state_of set_row_array row_array] in Habove.
  f_equal. f_equal. apply list_eq. intros j.
  destruct (decide (j < Z.to_nat height)%nat) as [Hj|Hj].
  - rewrite lookup_app_l by (rewrite row_offsets_length; lia).
    rewrite row_offsets_lookup by lia.
    specialize (Hval j Hj).
    replace (Z.to_nat 0 + j)%nat with j in Hval by lia.
    rewrite Hval. by rewrite Z.add_0_l.
  - rewrite lookup_app_r by (rewrite row_offsets_length; lia).
    rewrite row_offsets_length, lookup_drop.
    rewrite Habove by lia. f_equal. lia.
Qed.

(** Rows of [st] bytes taken at the offsets 0, [st], [2 * st], ... of a
    buffer of [n * st] bytes make up the buffer. *)
Lemma rows_cover (st : nat) : forall (n : nat) (l : list Z),
  length l = (n * st)%nat ->
  concat (map (fun i : nat => take st (drop (i * st) l)) (seq 0 n)) = l.
Proof.
  induction n as [|n IH]; intros l Hl.
  - by destruct l.
  - cbn [seq map concat]. rewrite <- fmap_S_seq, <- list_fmap_compose.
    rewrite Nat.mul_0_l, drop_0.
    transitivity (take st l ++ drop st l); [|apply take_drop]. f_equal.
    etransitivity; [|apply (IH (drop st l)); rewrite length_drop; lia].
    f_equal. apply list_fmap_ext. intros _ i _. cbn.
    by rewrite drop_drop.
Qed.

(** ** The transparency table *)

Lemma trans_alpha_array_length E : length (trans_alpha_array E) = 256%nat.
Proof.
  unfold trans_alpha_array.
  rewrite length_take, length_app, length_replicate. lia.
Qed.

(** [trans_alpha] after the [memset] and the store: [k] bytes 255, then a
    0, then whatever the array held; with [k] outside the array, a write
    past its end. *)
Lemma build_trans_alpha_spec E k s :
  if decide (0 <= k <= 255)
  then exists a,
         build_trans_alpha E k s = Ret a s /\
         length a = 256%nat /\
         take (Z.to_nat (k + 1)) a = replicate (Z.to_nat k) 255 ++ [0]
  else build_trans_alpha E k s = Halt (Undefined trans_alpha_overflow) s.
Proof.
  unfold build_trans_alpha, memset, store, bind, ret, halt_with.
  pose proof (trans_alpha_array_length E) as Hlen.
  case_decide as Hk.
  - rewrite decide_True by lia.
    assert (Hl : length (replicate (Z.to_nat k) 255
                         ++ drop (Z.to_nat k) (trans_alpha_array E)) = 256%nat).
    { rewrite length_app, length_replicate, length_drop. lia. }
    rewrite decide_True by lia.
    eexists. split; [reflexivity|]. split; [by rewrite length_insert|].
    replace (Z.to_nat (k + 1)) with (S (Z.to_nat k)) by lia.
    assert (Hd : exists x rest, drop (Z.to_nat k) (trans_alpha_array E) = x :: rest).
    { destruct (drop (Z.to_nat k) (trans_alpha_array E)) eqn:Hdrop; [|eauto].
      apply (f_equal length) in Hdrop. rewrite length_drop in Hdrop.
      simpl in Hdrop. lia. }
    destruct Hd as (x & rest & ->).
    rewrite insert_app_r_alt by (rewrite length_replicate; lia).
    rewrite length_replicate, Nat.sub_diag.
    rewrite take_app, length_replicate.
    rewrite take_ge by (rewrite length_replicate; lia).
    by replace (S (Z.to_nat k) - Z.to_nat k)%nat with 1%nat by lia.
  - destruct (decide (0 <= k <= Z.of_nat (length (trans_alpha_array E))))
      as [Hin|Hout]; [|done].
    rewrite decide_False; [done|].
    rewrite length_app, length_replicate, length_drop. lia.
Qed.

(** ** Running the encoder symbolically *)

Ltac simpl_state :=
  cbn [state_of verbose files open_streams stdout stderr png_trace row_array
       set_verbose set_files set_open_streams set_stdout set_stderr
       set_png_trace set_row_array negb] in *.

Ltac unfold_encoder :=
  unfold write_image, write_image_body, write_header, write_rows, setjmp,
    png, do_png_write_png, read_array, assert_ptr, log_call,
    fopen_wb, fwrite, fclose, eprint, print, longjmp, halt_with, modify, get,
    bind, ret in *.

(** One step: a loop is replaced by what its specification says, a test on
    the environment or on the frame by its two outcomes. *)
Ltac exec_step :=
  first
    [ match goal with
      | |- context [fill_rows ?n ?i ?p ?st ?s] =>
          let rows := fresh "rows" in
          let Hlen := fresh "Hlen" in
          let Hrun := fresh "Hrun" in
          let Hfit := fresh "Hfit" in
          let Hval := fresh "Hval" in
          destruct (fill_rows_spec n i p st s ltac:(cbn; lia))
            as (rows & Hlen & _ & Hrun);
          destruct (decide _) as [Hfit|Hfit] in Hrun;
          [destruct Hrun as [Hrun Hval] |]; rewrite Hrun; clear Hrun
      | |- context [build_trans_alpha ?E ?k ?s] =>
          let a := fresh "a" in
          let Hrun := fresh "Hrun" in
          let Hk := fresh "Hk" in
          let Hlen := fresh "Hlen" in
          let Htab := fresh "Htab" in
          pose proof (build_trans_alpha_spec E k s) as Hrun;
          destruct (decide _) as [Hk|Hk] in Hrun;
          [destruct Hrun as (a & Hrun & Hlen & Htab) |]; rewrite Hrun;
          clear Hrun
      | |- context [fopen_ok ?E ?f] => destruct (fopen_ok E f) eqn:?
      | |- context [png_create_write_struct_ok ?E] =>
          destruct (png_create_write_struct_ok E) eqn:?
      | |- context [png_create_info_struct_ok ?E] =>
          destruct (png_create_info_struct_ok E) eqn:?
      | |- context [IsTruecolor ?img] => destruct (IsTruecolor img) eqn:?
      | |- context [ColorMap ?img] => destruct (ColorMap img) eqn:?
      | |- context [round_bpp ?b] => destruct (round_bpp b) eqn:?
      | |- context [png_raises ?E ?c] => destruct (png_raises E c) eqn:?
      | |- context [decide ?P] => destruct (decide P)
      end ];
  simpl_state.

(** The trace of a state that made the calls [c1], [c2], ... after [s]. *)
Lemma calls_since_app s (t : list png_call) l :
  t = png_trace s ++ l -> drop (length (png_trace s)) t = l.
Proof. intros ->. by rewrite drop_app_length. Qed.

Ltac calls_since_norm :=
  unfold calls_since in *; simpl_state;
  repeat rewrite <- app_assoc in *;
  rewrite ?drop_app_length in *;
  try (rewrite (calls_since_app _ _ []) in * by (by rewrite app_nil_r));
  cbn [app] in *.

(** ** Destination that cannot be opened *)

(** C8: when the destination cannot be opened for writing, the encode call
    returns failure at once and the state is what it was: no file has been
    created, nothing has been written or printed, libpng has not been
    called. *)
Theorem unopenable_destination E img filename s :
  fopen_ok E filename = false ->
  write_image E img filename s = Ret false s /\
  files (state_of (write_image E img filename s)) !! filename
    = files s !! filename /\
  calls_since s (state_of (write_image E img filename s)) = [].
Proof.
  intros Hopen. unfold write_image. rewrite Hopen. cbn.
  split; [done|]. split; [done|].
  unfold calls_since. by rewrite drop_all.
Qed.

Lemma unopenable_destination_witness :
  write_image Samples.unwritable Samples.indexed_frame "/no/such/dir/a.png"
    Samples.stale = Ret false Samples.stale /\
  files (state_of (write_image Samples.unwritable Samples.indexed_frame
                     "/no/such/dir/a.png" Samples.stale))
    !! "/no/such/dir/a.png" = files Samples.stale !! "/no/such/dir/a.png" /\
  calls_since Samples.stale
    (state_of (write_image Samples.unwritable Samples.indexed_frame
                 "/no/such/dir/a.png" Samples.stale)) = [].
Proof. apply unopenable_destination. reflexivity. Defined.


(** Membership in an explicit list of calls, case by case. *)
Ltac in_calls H :=
  repeat (apply elem_of_cons in H as [H|H];
          [try discriminate H |]);
  try (by apply elem_of_nil in H).

Ltac has_call :=
  repeat first [apply list_elem_of_here | apply list_elem_of_further].

(** The guards of the indexed path, read off [reaches_transparency]. *)
Ltac reach_transparency H :=
  let Hopen := fresh "Hopen" in
  let Hws := fresh "Hws" in
  let His := fresh "His" in
  let Hio := fresh "Hio" in
  let Htc' := fresh "Htc'" in
  let Hcm := fresh "Hcm" in
  let bpp := fresh "bpp" in
  let Hbpp := fresh "Hbpp" in
  let Hihdr := fresh "Hihdr" in
  let Hcount := fresh "Hcount" in
  let Hplte := fresh "Hplte" in
  destruct H as (((Hopen & Hws & His & Hio) & Htc' & Hcm
                  & (bpp & Hbpp & Hihdr) & Hcount) & Hplte);
  unfold calls_of_kind; unfold_encoder;
  rewrite ?Htc', ?Hopen, ?Hws, ?His, ?Hio, ?Hcm, ?Hbpp, ?Hihdr;
  simpl_state.

(** C2: on the indexed path with [transparent_index = k], [k] a byte, the
    call builds the table of [k + 1] entries, 255 (opaque) at the indices
    below [k] and 0 (transparent) at index [k], and hands it to the writer:
    once the palette is accepted, [png_set_tRNS] is called with that table,
    once, however the call goes on; on no path is another table handed
    over.  With the sentinel -1 no transparency table is handed over at
    all. *)
Theorem transparency_table E img filename s (k : Z) :
  IsTruecolor img = false ->
  TransparentColorIndex img = k ->
  (k = -1 -> calls_of_kind is_tRNS E img filename s = []) /\
  (0 <= k <= 255 ->
   (forall cm,
      reaches_transparency E img filename cm ->
      calls_of_kind is_tRNS E img filename s
        = [png_set_tRNS (replicate (Z.to_nat k) 255 ++ [0]) (k + 1)]) /\
   (calls_of_kind is_tRNS E img filename s = [] \/
    calls_of_kind is_tRNS E img filename s
      = [png_set_tRNS (replicate (Z.to_nat k) 255 ++ [0]) (k + 1)]) /\
   Z.of_nat (length (replicate (Z.to_nat k) 255 ++ [0])) = k + 1 /\
   (forall i, 0 <= i < k ->
      (replicate (Z.to_nat k) 255 ++ [0]) !! Z.to_nat i = Some 255) /\
   (replicate (Z.to_nat k) 255 ++ [0]) !! Z.to_nat k = Some 0).
Proof.
  intros Htc Hk. split.
  - intros ->. unfold calls_of_kind. unfold_encoder. rewrite Htc, Hk.
    simpl_state.
    repeat exec_step; try (exfalso; lia); calls_since_norm; reflexivity.
  - intros Hbyte. split; [|split; [|split; [|split]]].
    + intros cm Hreach. reach_transparency Hreach. rewrite Hk.
      repeat (rewrite ?Hplte; exec_step; try (exfalso; lia)).
      all: rewrite ?wrap_int_id in *
        by (unfold in_int, INT_MIN, INT_MAX; lia).
      all: try (exfalso; lia).
      all: calls_since_norm; cbn [List.filter is_tRNS].
      all: rewrite ?Htab; reflexivity.
    + unfold calls_of_kind. unfold_encoder. rewrite Htc, Hk. simpl_state.
      repeat exec_step; try (exfalso; lia).
      all: rewrite ?wrap_int_id in *
        by (unfold in_int, INT_MIN, INT_MAX; lia).
      all: calls_since_norm; cbn [List.filter is_tRNS].
      all: first [left; reflexivity | right; rewrite ?Htab; reflexivity].
    + rewrite length_app, length_replicate. simpl. lia.
    + intros i Hi. rewrite lookup_app_l by (rewrite length_replicate; lia).
      apply lookup_replicate_2. lia.
    + rewrite lookup_app_r by (rewrite length_replicate; lia).
      by rewrite length_replicate, Nat.sub_diag.
Qed.

Lemma transparency_table_witness :
  calls_of_kind is_tRNS Samples.quiet Samples.indexed_frame "a.png"
    Samples.stale = [png_set_tRNS [255; 0] 2] /\
  calls_of_kind is_tRNS Samples.quiet Samples.opaque_frame "a.png"
    Samples.stale = [].
Proof.
  destruct (transparency_table Samples.quiet Samples.indexed_frame "a.png"
              Samples.stale 1 eq_refl eq_refl) as [_ Hbyte].
  destruct (transparency_table Samples.quiet Samples.opaque_frame "a.png"
              Samples.stale (-1) eq_refl eq_refl) as [Hnone _].
  split; [|by apply Hnone].
  destruct Hbyte as (Hmade & _); [lia|].
  apply (Hmade Samples.palette4).
  split; [|reflexivity].
  split; [repeat split; reflexivity|].
  split; [reflexivity|]. split; [reflexivity|].
  split; [|vm_compute; discriminate].
  exists 2. split; [vm_compute; reflexivity | reflexivity].
Defined.

(** The sample frame of the specification: three colours in use,
    [transparent_index = 1], table [[255; 0]]. *)
Example transparency_table_sample :
  exists s',
    write_image Samples.quiet Samples.indexed_frame "a.png" Samples.stale
      = Ret true s' /\
    png_set_tRNS [255; 0] 2 ∈ calls_since Samples.stale s'.
Proof.
  eexists. split; [vm_compute; reflexivity|].
  vm_compute. has_call.
Qed.

(** ** The header of an indexed frame *)

(** The bit depth announced for an indexed frame is the rounded
    [bits_per_pixel], with the palette colour type; for a truecolor frame
    it is 8 with the RGB-alpha colour type. *)
Lemma header_bit_depth E img filename s w h depth color_type :
  png_set_IHDR w h depth color_type
    ∈ calls_since s (state_of (write_image E img filename s)) ->
  w = Width img /\ h = Height img /\
  if IsTruecolor img
  then depth = 8 /\ color_type = PNG_COLOR_TYPE_RGB_ALPHA
  else color_type = PNG_COLOR_TYPE_PALETTE /\
       exists cm, ColorMap img = Some cm /\
                  round_bpp (BitsPerPixel cm) = Some depth.
Proof.
  unfold_encoder. simpl_state.
  repeat exec_step; try (exfalso; lia);
    calls_since_norm; intros Hin; in_calls Hin.
  all: injection Hin as -> -> -> ->.
  all: repeat split; eauto.
Qed.

Example header_bit_depth_sample :
  exists s',
    write_image Samples.quiet Samples.indexed_frame "a.png" Samples.stale
      = Ret true s' /\
    png_set_IHDR 2 2 2 PNG_COLOR_TYPE_PALETTE ∈ calls_since Samples.stale s'.
Proof.
  eexists. split; [vm_compute; reflexivity|]. vm_compute. has_call.
Qed.

(** ** The palette *)

(** C5: on the indexed path the call hands the colour table itself to the
    writer: once the header is accepted, [png_set_PLTE] is called, once
    and however the call goes on, with the table's first [ColorCount]
    triples in the table's order and with [ColorCount] as their number;
    on no path is another palette handed over.  For a table that holds
    exactly the entries it counts, the palette is the table. *)
Theorem palette_order E img filename s (cm : ColorMapObject) :
  IsTruecolor img = false ->
  ColorMap img = Some cm ->
  0 <= ColorCount cm <= Z.of_nat (length (Colors cm)) ->
  (reaches_palette E img filename cm ->
   calls_of_kind is_PLTE E img filename s
     = [png_set_PLTE (take (Z.to_nat (ColorCount cm)) (Colors cm))
          (ColorCount cm)]) /\
  (reaches_palette E img filename cm ->
   Z.of_nat (length (Colors cm)) = ColorCount cm ->
   calls_of_kind is_PLTE E img filename s
     = [png_set_PLTE (Colors cm) (Z.of_nat (length (Colors cm)))]) /\
  (calls_of_kind is_PLTE E img filename s = [] \/
   calls_of_kind is_PLTE E img filename s
     = [png_set_PLTE (take (Z.to_nat (ColorCount cm)) (Colors cm))
          (ColorCount cm)]) /\
  Z.of_nat (length (take (Z.to_nat (ColorCount cm)) (Colors cm)))
    = ColorCount cm /\
  (forall i : nat, Z.of_nat i < ColorCount cm ->
     take (Z.to_nat (ColorCount cm)) (Colors cm) !! i = Colors cm !! i).
Proof.
  intros Htc Hcm Hcount.
  assert (Hmade : reaches_palette E img filename cm ->
    calls_of_kind is_PLTE E img filename s
      = [png_set_PLTE (take (Z.to_nat (ColorCount cm)) (Colors cm))
           (ColorCount cm)]).
  { intros ((Hopen & Hws & His & Hio) & _ & _ & (bpp & Hbpp & Hihdr) & _).
    unfold calls_of_kind. unfold_encoder.
    rewrite Htc, Hopen, Hws, His, Hio, Hcm, Hbpp, Hihdr. simpl_state.
    repeat exec_step; try (exfalso; lia).
    all: calls_since_norm; reflexivity. }
  split; [exact Hmade|]. split; [|split; [|split]].
  - intros Hreach Hall. rewrite (Hmade Hreach), <- Hall.
    by rewrite Nat2Z.id, firstn_all.
  - unfold calls_of_kind. unfold_encoder. rewrite Htc, Hcm. simpl_state.
    repeat exec_step; try (exfalso; lia).
    all: calls_since_norm; cbn [List.filter is_PLTE].
    all: first [left; reflexivity | right; reflexivity].
  - rewrite length_take. lia.
  - intros i Hi. apply lookup_take_lt. lia.
Qed.

Lemma palette_order_witness :
  calls_of_kind is_PLTE Samples.quiet Samples.indexed_frame "a.png"
    Samples.stale
  = [png_set_PLTE [ {| Red := 1; Green := 2; Blue := 3 |};
                    {| Red := 4; Green := 5; Blue := 6 |};
                    {| Red := 7; Green := 8; Blue := 9 |};
                    {| Red := 0; Green := 0; Blue := 0 |} ] 4].
Proof.
  destruct (palette_order Samples.quiet Samples.indexed_frame "a.png"
              Samples.stale Samples.palette4 eq_refl eq_refl)
    as (_ & Hwhole & _).
  { vm_compute. split; discriminate. }
  apply Hwhole; [|reflexivity].
  split; [repeat split; reflexivity|].
  split; [reflexivity|]. split; [reflexivity|].
  split; [|vm_compute; discriminate].
  exists 2. split; [vm_compute; reflexivity | reflexivity].
Defined.

(** ** Stride and row pointers *)

(** C6: the stride the code computes is [4 * Width] bytes for a truecolor
    frame and [Width] bytes for an indexed one.  Once the header phase is
    through and the scratch array has room for the rows, the call
    rebuilds the row pointers and presents them to the writer, once and
    however it goes on: one per row, entry [i] at offset [i * stride] into
    the pixel buffer for every [i] from 0 to [Height - 1], whatever the
    scratch array held before the call; the entries of the array from
    [Height] on are left as they were.  On no path are other row pointers
    presented.  In a pixel buffer of [Height] rows of [stride] bytes the
    rows these pointers point to are, in their order, the whole buffer. *)
Theorem row_pointers_rebuilt E img filename s :
  0 <= 4 * Width img <= INT_MAX ->
  let stride := if IsTruecolor img then 4 * Width img else Width img in
  (forall st s1 s2,
     write_header E img filename s1 = Ret st s2 -> st = stride) /\
  (reaches_rows E img filename ->
   (forall s1, exists s2, write_header E img filename s1 = Ret stride s2) /\
   (Height img <= Z.of_nat (length (row_array s)) ->
    Z.max 0 (Height img) * stride <= Z.of_nat (length (RasterData img)) ->
    calls_of_kind is_rows E img filename s
      = [png_set_rows (row_offsets stride (Height img))] /\
    row_array (state_of (write_image E img filename s))
      = row_offsets stride (Height img)
        ++ drop (Z.to_nat (Height img)) (row_array s))) /\
  (calls_of_kind is_rows E img filename s = [] \/
   calls_of_kind is_rows E img filename s
     = [png_set_rows (row_offsets stride (Height img))]) /\
  Z.of_nat (length (row_offsets stride (Height img)))
    = Z.max 0 (Height img) /\
  (forall i, 0 <= i < Height img ->
     row_offsets stride (Height img) !! Z.to_nat i = Some (i * stride)) /\
  (Z.of_nat (length (RasterData img)) = Z.max 0 (Height img) * stride ->
   concat (map (row_at img stride) (row_offsets stride (Height img)))
     = RasterData img).
Proof.
  intros Hw stride.
  assert (Hint : INT_MIN <= 4 * Width img <= INT_MAX)
    by (unfold INT_MIN, INT_MAX in *; lia).
  assert (Hs4 : to_size_t (4 * Width img) = 4 * Width img).
  { apply to_size_t_id. unfold INT_MAX in Hw. lia. }
  assert (Hs1 : to_size_t (Width img) = Width img).
  { apply to_size_t_id. unfold INT_MAX in Hw. lia. }
  assert (Htake : forall st (rest : list Z),
            take (Z.to_nat (Height img)) (row_offsets st (Height img) ++ rest)
            = row_offsets st (Height img)).
  { intros st rest. apply take_app_length'. by rewrite row_offsets_length. }
  assert (Hroom : forall st,
            Height img <= Z.of_nat (length (row_array s)) ->
            Height img
            <= Z.of_nat (length (row_offsets st (Height img)
                                 ++ drop (Z.to_nat (Height img))
                                      (row_array s)))).
  { intros st Hfit. rewrite length_app, row_offsets_length, length_drop. lia. }
  split; [|split; [|split; [|split; [|split]]]].
  - intros st s1 s2. subst stride.
    unfold_encoder. simpl_state.
    repeat exec_step; try (exfalso; lia);
      intros Hret; try discriminate Hret.
    all: injection Hret as <- <-; assumption.
  - intros Hreach. unfold reaches_rows in Hreach. subst stride.
    destruct (IsTruecolor img) eqn:Htc.
    + destruct Hreach as ((Hopen & Hws & His & Hio) & Hihdr & _).
      split.
      * intros s1. unfold_encoder. rewrite Htc, Hio, Hihdr. simpl_state.
        rewrite decide_True by exact Hint. rewrite Hs4. eauto.
      * intros Hfit _. unfold calls_of_kind. unfold_encoder.
        rewrite Htc, Hopen, Hws, His, Hio, Hihdr. simpl_state.
        rewrite decide_True by exact Hint. rewrite Hs4.
        rewrite fill_rows_exact by (simpl_state; exact Hfit). simpl_state.
        rewrite decide_True by (by apply Hroom). rewrite Htake.
        repeat exec_step.
        all: split; [calls_since_norm; reflexivity | reflexivity].
    + destruct Hreach as (cm & Hreach & Hk).
      split.
      * intros s1. reach_transparency Hreach.
        rewrite decide_True by exact Hcount. rewrite Hplte.
        destruct Hk as [Hk|[Hk Htrns]].
        -- rewrite decide_True by exact Hk. rewrite Hs1. eauto.
        -- rewrite decide_False by lia.
           repeat exec_step; try (exfalso; lia).
           all: rewrite ?wrap_int_id in *
             by (unfold in_int, INT_MIN, INT_MAX; lia).
           all: try (exfalso; lia).
           all: rewrite ?Htab in *; try congruence.
           all: rewrite Hs1; eauto.
      * intros Hfit _. reach_transparency Hreach.
        rewrite decide_True by exact Hcount. rewrite Hplte. rewrite Hs1.
        destruct Hk as [Hk|[Hk Htrns]].
        -- rewrite decide_True by exact Hk.
           rewrite fill_rows_exact by (simpl_state; exact Hfit). simpl_state.
           rewrite decide_True by (by apply Hroom). rewrite Htake.
           repeat exec_step.
           all: split; [calls_since_norm; reflexivity | reflexivity].
        -- rewrite decide_False by lia.
           repeat
             first [ rewrite fill_rows_exact by (simpl_state; exact Hfit);
                     simpl_state;
                     rewrite decide_True by (by apply Hroom); rewrite Htake
                   | exec_step; try (exfalso; lia) ].
           all: rewrite ?wrap_int_id in *
             by (unfold in_int, INT_MIN, INT_MAX; lia).
           all: try (exfalso; lia).
           all: rewrite ?Htab in *; try congruence.
           all: split; [calls_since_norm; reflexivity | reflexivity].
  - subst stride. unfold calls_of_kind. unfold_encoder. simpl_state.
    destruct (decide (Height img <= Z.of_nat (length (row_array s))))
      as [Hfit|Hfit].
    + repeat
        first [ rewrite fill_rows_exact by (simpl_state; exact Hfit);
                simpl_state;
                rewrite decide_True by (by apply Hroom); rewrite ?Hs4, ?Hs1;
                rewrite Htake
              | rewrite ?Hs4, ?Hs1; exec_step; try (exfalso; lia) ].
      all: calls_since_norm; cbn [List.filter is_rows].
      all: first [left; reflexivity | right; reflexivity].
    + repeat exec_step; try (exfalso; lia).
      all: calls_since_norm; cbn [List.filter is_rows].
      all: left; reflexivity.
  - rewrite row_offsets_length. lia.
  - intros i Hi. rewrite row_offsets_lookup by lia.
    by rewrite Z2Nat.id by lia.
  - intros Hsize.
    assert (Hst : 0 <= stride)
      by (subst stride; destruct (IsTruecolor img); lia).
    unfold row_offsets. rewrite <- list_fmap_compose.
    etransitivity;
      [|apply (rows_cover (Z.to_nat stride) (Z.to_nat (Height img))
                 (RasterData img)); nia].
    f_equal. apply list_fmap_ext. intros _ i _. cbn. unfold row_at.
    do 2 f_equal. nia.
Qed.

Lemma row_pointers_rebuilt_witness :
  (exists s2,
     write_header Samples.quiet Samples.truecolor_frame "a.png" Samples.stale
       = Ret 8 s2) /\
  calls_of_kind is_rows Samples.quiet Samples.truecolor_frame "a.png"
    Samples.stale = [png_set_rows [0; 8]] /\
  row_array (state_of (write_image Samples.quiet Samples.truecolor_frame
                         "a.png" Samples.stale)) = [0; 8; 5] /\
  concat (map (row_at Samples.truecolor_frame 8) [0; 8])
    = RasterData Samples.truecolor_frame.
Proof.
  destruct (row_pointers_rebuilt Samples.quiet Samples.truecolor_frame
              "a.png" Samples.stale) as (_ & Hmade & _ & _ & _ & Hcover).
  { vm_compute. split; discriminate. }
  destruct Hmade as [Hhdr Hrows].
  { split; [repeat split; reflexivity|]. split; [reflexivity|].
    vm_compute. split; discriminate. }
  split; [exact (Hhdr Samples.stale)|].
  destruct Hrows as [Hcalls Harray]; [vm_compute; discriminate ..|].
  split; [exact Hcalls|]. split; [exact Harray|].
  apply Hcover. reflexivity.
Defined.

(** The stale scratch array [[5; 5; 5]] after a 2-row truecolor frame of
    width 2: rows at offsets 0 and 8, the third entry left as it was. *)
Example row_pointers_sample :
  exists s',
    write_image Samples.quiet Samples.truecolor_frame "a.png" Samples.stale
      = Ret true s' /\
    row_array s' = [0; 8; 5] /\
    png_set_rows [0; 8] ∈ calls_since Samples.stale s'.
Proof.
  eexists. split; [vm_compute; reflexivity|].
  split; [vm_compute; reflexivity|]. vm_compute. has_call.
Qed.

(** ** Failure after the destination was opened *)

(** C3, as stated, fails: libpng gives up inside [png_write_png] after two
    bytes; the call closes the stream and returns failure, and the
    destination, which did not exist before, is left holding those two
    bytes. *)
Lemma partial_file_left_behind :
  fopen_ok Samples.failing_write "a.png" = true /\
  files Samples.stale !! "a.png" = None /\
  exists s',
    write_image Samples.failing_write Samples.truecolor_frame "a.png"
      Samples.stale = Ret false s' /\
    files s' !! "a.png" = Some [137; 80] /\
    ~ (files s' !! "a.png" = None \/ files s' !! "a.png" = Some []).
Proof.
  split; [reflexivity|]. split; [reflexivity|].
  eexists. split; [vm_compute; reflexivity|].
  split; [vm_compute; reflexivity|].
  vm_compute. intros [H|H]; discriminate H.
Qed.

(** C3, amended: an encode call that returns failure after it opened the
    destination leaves the destination in place and never deletes it.  The
    file is empty when the failure came before the write (an allocation
    that failed, an error raised by a set-up call); when libpng gave up
    inside [png_write_png], the file holds the bytes written until then.
    No other file is touched. *)
Theorem failure_leaves_destination E img filename s s' :
  fopen_ok E filename = true ->
  write_image E img filename s = Ret false s' ->
  exists bytes,
    files s' = <[filename := bytes]> (files s) /\
    files s' !! filename = Some bytes /\
    ((bytes = [] /\ forall t, png_write_png t ∉ calls_since s s') \/
     (exists t calls,
        png_raises E (png_write_png t) = true /\
        png_trace s' = calls ++ [png_destroy_write_struct true] /\
        last calls = Some (png_write_png t) /\
        bytes = png_partial E calls)).
Proof.
  intros Hopen.
  unfold_encoder. rewrite Hopen. simpl_state.
  repeat exec_step; try (exfalso; lia);
    intros Hret; try discriminate Hret.
  all: injection Hret as <-; simpl_state.
  all: rewrite ?lookup_insert_eq; cbn [default app].
  all: rewrite ?insert_insert_eq.
  all: eexists; split; [reflexivity|].
  all: split; [by rewrite ?lookup_insert_eq|].
  all: first
    [ left; split; [reflexivity|];
      intros t Hin; calls_since_norm; in_calls Hin; fail
    | right; eexists _, _; split; [eassumption|];
      split; [reflexivity|]; split; [by rewrite last_snoc | reflexivity] ].
Qed.

Lemma failure_leaves_destination_witness :
  exists s' bytes,
    write_image Samples.failing_write Samples.truecolor_frame "a.png"
      Samples.stale = Ret false s' /\
    files s' = <[ "a.png" := bytes ]> (files Samples.stale) /\
    files s' !! "a.png" = Some bytes /\
    ((bytes = [] /\
      forall t, png_write_png t ∉ calls_since Samples.stale s') \/
     (exists t calls,
        png_raises Samples.failing_write (png_write_png t) = true /\
        png_trace s' = calls ++ [png_destroy_write_struct true] /\
        last calls = Some (png_write_png t) /\
        bytes = png_partial Samples.failing_write calls)).
Proof.
  eexists.
  assert (Hrun : write_image Samples.failing_write Samples.truecolor_frame
                   "a.png" Samples.stale = Ret false _)
    by (vm_compute; reflexivity).
  destruct (failure_leaves_destination Samples.failing_write
              Samples.truecolor_frame "a.png" Samples.stale _
              eq_refl Hrun) as (bytes & H).
  exists bytes. split; [exact Hrun | exact H].
Defined.

(** When [png_create_write_struct] returns [NULL], the destination, just
    created, stays behind empty and its stream is never closed. *)
Example empty_file_left_behind :
  exists s',
    write_image Samples.no_memory Samples.truecolor_frame "a.png"
      Samples.stale = Ret false s' /\
    files s' !! "a.png" = Some [] /\
    open_streams s' = ["a.png"].
Proof. eexists. repeat split; vm_compute; reflexivity. Qed.

(** ** An indexed frame without a colour table *)

(** C4, as stated, fails: with every resource granted, the encode call for
    an indexed frame that has no colour table does not return a failure;
    it does not return at all, the assertion ends the process. *)
Lemma headless_frame_aborts :
  IsTruecolor Samples.headless_frame = false /\
  ColorMap Samples.headless_frame = None /\
  (exists s',
     write_image Samples.quiet Samples.headless_frame "a.png" Samples.stale
       = Halt Aborted s') /\
  ~ (exists s',
       write_image Samples.quiet Samples.headless_frame "a.png" Samples.stale
         = Ret false s').
Proof.
  split; [reflexivity|]. split; [reflexivity|]. split.
  - eexists. vm_compute. reflexivity.
  - intros [s' H]. vm_compute in H. discriminate H.
Qed.

(** C4, amended: for an indexed frame that has no colour table, an encode
    call that has opened the destination, allocated the encoder and
    initialised its output never returns: [assert(img->ColorMap)] aborts
    the process.  The destination is left behind empty, and the driver's
    frame loop ends with that frame: the frames after it are not
    encoded.  A call that fails earlier returns failure as for any other
    frame; no call succeeds. *)
Theorem headless_frame_assertion E img filename :
  IsTruecolor img = false ->
  ColorMap img = None ->
  (forall s s', write_image E img filename s <> Ret true s') /\
  (fopen_ok E filename = true ->
   png_create_write_struct_ok E = true ->
   png_create_info_struct_ok E = true ->
   png_raises E (png_init_io filename) = false ->
   (forall s, exists s',
      write_image E img filename s = Halt Aborted s' /\
      files s' = <[filename := []]> (files s) /\
      stdout s' = stdout s) /\
   (forall R output_base fn_len rest frame s,
      encode_env R frame = E ->
      output_name output_base fn_len frame = filename ->
      exists s',
        frame_loop R output_base fn_len (img :: rest) frame s
          = Halt Aborted s' /\
        stdout s' = stdout s)).
Proof.
  intros Htc Hcm. split.
  - intros s s'. unfold_encoder. rewrite Htc, Hcm. simpl_state.
    repeat exec_step; discriminate.
  - intros Hopen Hws His Hio.
    assert (Hrun : forall s, exists s',
               write_image E img filename s = Halt Aborted s' /\
               files s' = <[filename := []]> (files s) /\
               stdout s' = stdout s).
    { intros s. unfold_encoder.
      rewrite Htc, Hcm, Hopen, Hws, His, Hio. simpl_state.
      eexists. split; [reflexivity|]. by simpl_state. }
    split; [exact Hrun|].
    intros R output_base fn_len rest frame s HE Hname.
    cbn [frame_loop]. rewrite HE, Hname.
    unfold dbgprintf, eprint, modify, get, bind, ret.
    destruct (verbose s).
    + destruct (Hrun (set_stderr
         (stderr s ++
          ["Read frame " +:+ fmt_d frame +:+ " (truecolor="
           +:+ fmt_d (Z.b2z (IsTruecolor img)) +:+ ", cmap="
           +:+ fmt_d (Z.b2z (UsedLocalColormap img)) +:+ ")" +:+ LF]) s))
        as (s' & -> & _ & Hout).
      by exists s'.
    + destruct (Hrun s) as (s' & -> & _ & Hout). by exists s'.
Qed.

Lemma headless_frame_assertion_witness :
  (forall s s',
     write_image Samples.quiet Samples.headless_frame "out000000.png" s
       <> Ret true s') /\
  (fopen_ok Samples.quiet "out000000.png" = true ->
   png_create_write_struct_ok Samples.quiet = true ->
   png_create_info_struct_ok Samples.quiet = true ->
   png_raises Samples.quiet (png_init_io "out000000.png") = false ->
   (forall s, exists s',
      write_image Samples.quiet Samples.headless_frame "out000000.png" s
        = Halt Aborted s' /\
      files s' = <[ "out000000.png" := [] ]> (files s) /\
      stdout s' = stdout s) /\
   (forall R output_base fn_len rest frame s,
      encode_env R frame = Samples.quiet ->
      output_name output_base fn_len frame = "out000000.png" ->
      exists s',
        frame_loop R output_base fn_len (Samples.headless_frame :: rest)
          frame s = Halt Aborted s' /\
        stdout s' = stdout s)).
Proof.
  apply (headless_frame_assertion Samples.quiet Samples.headless_frame
           "out000000.png"); reflexivity.
Defined.

(** A run whose second frame has no colour table: the first frame is
    written and reported, then the process aborts; the third frame is
    never encoded and no exit status is returned. *)
Example headless_frame_run :
  exists s',
    main (Samples.run_of [Samples.truecolor_frame; Samples.headless_frame;
                          Samples.truecolor_frame]
            (Some {| HasErrors := false; LoopCount := 0 |}))
         (initial_state ∅) = Halt Aborted s' /\
    stdout s' = ["0 delay=7" +:+ LF] /\
    files s' !! "out000001.png" = Some [] /\
    files s' !! "out000002.png" = None.
Proof.
  eexists. split; [vm_compute; reflexivity|].
  repeat split; vm_compute; reflexivity.
Qed.

(** ** Formatted numbers and file names *)

Lemma app_cons c (s t : string) : String c s +:+ t = String c (s +:+ t).
Proof. reflexivity. Qed.

Lemma app_empty (t : string) : "" +:+ t = t.
Proof. reflexivity. Qed.

Lemma app_assoc_string (s t u : string) : (s +:+ t) +:+ u = s +:+ t +:+ u.
Proof. induction s as [|c s IH]; [done|]. by rewrite !app_cons, IH. Qed.

Lemma length_app_string (s t : string) :
  String.length (s +:+ t) = (String.length s + String.length t)%nat.
Proof. induction s as [|c s IH]; [done|]. rewrite app_cons. cbn. by rewrite IH. Qed.

Lemma substring_whole (s : string) (n : nat) :
  (String.length s <= n)%nat -> String.substring 0 n s = s.
Proof.
  revert n. induction s as [|c s IH]; intros [|n] Hn; cbn in *; try done.
  - lia.
  - rewrite IH; [done|lia].
Qed.

Lemma utoa_acc fuel : forall n acc, utoa fuel n acc = utoa fuel n "" +:+ acc.
Proof.
  induction fuel as [|fuel IH]; intros n acc; [done|].
  cbn [utoa]. destruct (n / 10 =? 0); [done|].
  rewrite (IH _ (String _ acc)), (IH _ (String _ "")).
  by rewrite app_assoc_string.
Qed.

Lemma utoa_length fuel : forall n,
  (String.length (utoa fuel n "") <= fuel)%nat.
Proof.
  induction fuel as [|fuel IH]; intros n; [done|].
  cbn [utoa]. destruct (n / 10 =? 0); [cbn; lia|].
  rewrite utoa_acc, length_app_string. cbn. specialize (IH (n / 10)). lia.
Qed.

Lemma digit_val_char d : 0 <= d < 10 -> digit_val (digit_char d) = d.
Proof.
  intros Hd. unfold digit_val, digit_char.
  rewrite nat_ascii_embedding; lia.
Qed.

Lemma atoi_from_app (s t : string) : forall a,
  atoi_from a (s +:+ t) = atoi_from (atoi_from a s) t.
Proof. induction s as [|c s IH]; intros a; [done|]. rewrite app_cons. cbn. apply IH. Qed.

Lemma atoi_utoa fuel : forall n,
  0 <= n < 10 ^ Z.of_nat fuel -> atoi_from 0 (utoa fuel n "") = n.
Proof.
  induction fuel as [|fuel IH]; intros n Hn.
  - cbn in *. lia.
  - cbn [utoa].
    assert (Hd : 0 <= n mod 10 < 10) by (apply Z.mod_pos_bound; lia).
    destruct (n / 10 =? 0) eqn:Hq.
    + cbn. rewrite digit_val_char by done.
      apply Z.eqb_eq in Hq.
      pose proof (Z.div_mod n 10 ltac:(lia)). lia.
    + rewrite utoa_acc, atoi_from_app, IH.
      * cbn. rewrite digit_val_char by done.
        pose proof (Z.div_mod n 10 ltac:(lia)). lia.
      * rewrite Nat2Z.inj_succ, Z.pow_succ_r in Hn by lia.
        split; [apply Z.div_pos; lia|].
        apply Z.div_lt_upper_bound; lia.
Qed.

Lemma atoi_zeros k (s : string) : atoi_from 0 (zeros k +:+ s) = atoi_from 0 s.
Proof. induction k as [|k IH]; [done|]. cbn [zeros]. rewrite app_cons. exact IH. Qed.

Lemma zero_pad_length w (s : string) :
  String.length (zero_pad w s) = Nat.max w (String.length s).
Proof.
  unfold zero_pad. rewrite length_app_string.
  assert (Hz : forall k, String.length (zeros k) = k)
    by (induction k as [|k IH]; cbn; congruence).
  rewrite Hz. lia.
Qed.

(** [%06d] of a frame number can be read back. *)
Lemma atoi_fmt_06d n : 0 <= n < 10 ^ 10 -> atoi_from 0 (fmt_06d n) = n.
Proof.
  intros Hn. unfold fmt_06d. rewrite (proj2 (Z.ltb_ge n 0)) by lia.
  unfold zero_pad. rewrite atoi_zeros. by apply atoi_utoa.
Qed.

Lemma fmt_06d_length n : 0 <= n -> (String.length (fmt_06d n) <= 10)%nat.
Proof.
  intros Hn. unfold fmt_06d. rewrite (proj2 (Z.ltb_ge n 0)) by lia.
  rewrite zero_pad_length. pose proof (utoa_length 10 n). lia.
Qed.

(** The buffer of [strlen(output_base) + 64] bytes is large enough:
    [snprintf] never cuts a file name short. *)
Lemma frame_name_eq output_base i :
  0 <= i -> frame_name output_base i = output_base +:+ fmt_06d i +:+ ".png".
Proof.
  intros Hi. unfold frame_name, output_name, snprintf.
  apply substring_whole. rewrite !length_app_string.
  pose proof (fmt_06d_length i Hi). cbn. lia.
Qed.

(** Frames with different numbers go to different files. *)
Lemma frame_name_inj output_base i j :
  0 <= i < 2 ^ 31 -> 0 <= j < 2 ^ 31 ->
  frame_name output_base i = frame_name output_base j -> i = j.
Proof.
  intros Hi Hj. rewrite !frame_name_eq by lia. intros Heq.
  apply (inj (String.app output_base)) in Heq.
  apply (f_equal (atoi_from 0)) in Heq.
  rewrite !atoi_from_app, !atoi_fmt_06d in Heq by lia.
  cbn in Heq. lia.
Qed.

Example frame_name_sample :
  frame_name "out" 12 = "out000012.png" /\
  frame_name "out" 1234567 = "out1234567.png".
Proof. split; vm_compute; reflexivity. Qed.

(** ** What an encode call leaves alone *)

(** An encode call prints nothing on the standard output, keeps
    [verbose], never resizes the scratch array, and changes no file but
    its destination; no file disappears; control never leaves it through
    a [longjmp]; after a success the destination exists. *)
Lemma write_image_frame E img filename s :
  verbose (state_of (write_image E img filename s)) = verbose s /\
  stdout (state_of (write_image E img filename s)) = stdout s /\
  length (row_array (state_of (write_image E img filename s)))
    = length (row_array s) /\
  (forall g, g <> filename ->
     files (state_of (write_image E img filename s)) !! g = files s !! g) /\
  (forall g, is_Some (files s !! g) ->
     is_Some (files (state_of (write_image E img filename s)) !! g)) /\
  (forall s', write_image E img filename s <> Jump s') /\
  (forall s', write_image E img filename s = Ret true s' ->
     is_Some (files s' !! filename)).
Proof.
  assert (Hkeep : forall (m : gmap string (list Z)) b g,
             is_Some (m !! g) -> is_Some (<[filename := b]> m !! g)).
  { intros m b g Hg. destruct (decide (filename = g)) as [->|Hne].
    - rewrite lookup_insert_eq. eauto.
    - by rewrite lookup_insert_ne. }
  unfold_encoder. simpl_state.
  repeat exec_step; try (exfalso; lia).
  all: repeat split; try done; try congruence.
  all: try (intros g Hg; by rewrite ?lookup_insert_ne by done).
  all: try (intros g Hg; by repeat apply Hkeep).
  all: try (intros s' Hret; injection Hret as <-; simpl_state;
            rewrite lookup_insert_eq; eauto).
Qed.


(** ** The driver up to the frame loop *)

Lemma option_loop_v R opts : forall s,
  Forall (fun opt => opt = "v"%char) opts ->
  exists s',
    option_loop R opts s = Ret None s' /\
    files s' = files s /\ stdout s' = stdout s.
Proof.
  induction opts as [|opt opts IH]; intros s Hv.
  - by exists s.
  - apply Forall_cons in Hv as [-> Hv]. cbn [option_loop].
    rewrite decide_True by done. unfold bind, modify.
    destruct (IH (set_verbose true s) Hv) as (s' & -> & Hf & Ho).
    by exists s'.
Qed.

Lemma main_starts R output_base handle rows s :
  run_starts R output_base handle rows ->
  exists s1,
    main R s
      = split_frames R handle output_base (String.length output_base + 64) s1 /\
    files s1 = files s /\ stdout s1 = stdout s /\ row_array s1 = rows.
Proof.
  intros (Hv & Hind & Hpos & Hmem & in_filename & gif & Hin & Hbase & Hgif
          & Hhandle & Hrows).
  destruct (option_loop_v R _ s Hv) as (s0 & Hopts & Hf & Ho).
  unfold main, bind. rewrite Hopts.
  rewrite decide_True by done.
  unfold arg, ret. rewrite !decide_True by lia. rewrite Hin, Hbase, Hmem.
  cbn [negb]. unfold dbgprintf, bind, get, eprint, modify, ret.
  destruct (verbose s0); rewrite Hgif, Hhandle, Hrows;
    eexists; (split; [reflexivity|]); by simpl_state.
Qed.

(** ** The frame loop *)


(** ** A run that ends with [has_errors] *)




(** The run of the specification's example: five frames, then
    [has_errors]; five files, five reports, exit status 1. *)
Example has_errors_run_sample :
  exists s',
    main Samples.five_then_errors (initial_state ∅) = Ret 1 s' /\
    stdout s' = ["0 delay=10" +:+ LF; "1 delay=7" +:+ LF;
                 "2 delay=10" +:+ LF; "3 delay=7" +:+ LF;
                 "4 delay=10" +:+ LF] /\
    stderr s' = ["Error while processing input gif" +:+ LF] /\
    map (fun f => from_option (fun _ => true) false (files s' !! f))
      ["out000000.png"; "out000001.png"; "out000002.png"; "out000003.png";
       "out000004.png"; "out000005.png"]
      = [true; true; true; true; true; false].
Proof.
  eexists. split; [vm_compute; reflexivity|].
  split; [vm_compute; reflexivity|].
  split; vm_compute; reflexivity.
Qed.

(** ** The scratch array of row pointers *)

Lemma malloc_rows_length R gif rows :
  in_int (SHeight gif) ->
  malloc_rows R gif = Some rows ->
  Z.of_nat (length rows) = SHeight gif.
Proof.
  unfold in_int, INT_MIN, INT_MAX, malloc_rows, rows_request, to_size_t,
    PTRDIFF_MAX.
  intros Hh Hm.
  destruct (malloc_rows_ok R); [|discriminate Hm]. cbn [andb] in Hm.
  destruct (decide (0 <= SHeight gif)) as [Hpos|Hneg].
  - rewrite (Z.mod_small (SHeight gif)) in Hm by lia.
    rewrite (Z.mod_small (8 * SHeight gif)) in Hm by lia.
    destruct (_ <=? _); [|discriminate Hm]. injection Hm as <-.
    rewrite length_take, length_app, length_replicate.
    replace (8 * SHeight gif / 8) with (SHeight gif)
      by (rewrite Z.mul_comm, Z.div_mul; lia).
    lia.
  - exfalso.
    assert (Hm1 : SHeight gif mod 2 ^ 64 = SHeight gif + 2 ^ 64).
    { symmetry. apply Z.mod_unique with (q := -1); lia. }
    assert (Hm2 : (8 * (SHeight gif mod 2 ^ 64)) mod 2 ^ 64
                  = 8 * SHeight gif + 2 ^ 64).
    { rewrite Hm1. symmetry. apply Z.mod_unique with (q := 7); lia. }
    rewrite Hm2 in Hm.
    destruct (_ <=? _) eqn:Hle; [|discriminate Hm].
    apply Z.leb_le in Hle. lia.
Qed.




(** A frame of three rows on a screen of two: the third row pointer is
    written past the end of the array. *)
Example tall_frame_overflows :
  exists s',
    main (Samples.run_of [Samples.tall_frame]
            (Some {| HasErrors := false; LoopCount := 0 |}))
         (initial_state ∅)
      = Halt (Undefined row_pointers_overflow) s' /\
    row_array s' = [0; 4].
Proof. eexists. split; vm_compute; reflexivity. Qed.

(** ** The end-of-run report *)

(** C10: the end-of-run report reads [info->HasErrors] before it tests
    [info].  Once the frame loop has run to its end, a null result of
    [GifSplitterGetInfo] is dereferenced, whatever else holds; and
    whenever the run returns an exit status, [info] was not null, so the
    test that guards the loop-count line is always true when it is
    evaluated: status 0 always comes with the line printed. *)
Theorem info_dereferenced_before_check R handle output_base fn_len s s1 :
  frame_loop R output_base fn_len (ReadFrame handle) 0 s = Ret None s1 ->
  (GetInfo handle = None ->
   split_frames R handle output_base fn_len s
     = Halt (Undefined null_dereference) s1) /\
  (forall code s',
     split_frames R handle output_base fn_len s = Ret code s' ->
     exists info,
       GetInfo handle = Some info /\
       ((code = 1 /\ HasErrors info = true /\ stdout s' = stdout s1) \/
        (code = 0 /\ HasErrors info = false /\
         stdout s' = stdout s1
                     ++ ["loops=" +:+ fmt_d (LoopCount info) +:+ LF]))).
Proof.
  intros Hloop. unfold split_frames, bind. rewrite Hloop.
  unfold end_of_run. split.
  - intros ->. reflexivity.
  - intros code s'. destruct (GetInfo handle) as [info|]; [|discriminate].
    unfold bind, eprint, print, modify, ret.
    destruct (HasErrors info) eqn:Herr; intros Hret; injection Hret as <- <-;
      exists info; (split; [reflexivity|]); [left | right];
      repeat split; assumption.
Qed.

Lemma info_dereferenced_before_check_witness :
  exists s1,
    frame_loop (Samples.run_of [Samples.truecolor_frame] None) "out" 67
      [Samples.truecolor_frame] 0
      (set_row_array [99; 0] (initial_state ∅)) = Ret None s1 /\
    (GetInfo {| ReadFrame := [Samples.truecolor_frame]; GetInfo := None |}
       = None ->
     split_frames (Samples.run_of [Samples.truecolor_frame] None)
       {| ReadFrame := [Samples.truecolor_frame]; GetInfo := None |}
       "out" 67 (set_row_array [99; 0] (initial_state ∅))
       = Halt (Undefined null_dereference) s1) /\
    (forall code s',
       split_frames (Samples.run_of [Samples.truecolor_frame] None)
         {| ReadFrame := [Samples.truecolor_frame]; GetInfo := None |}
         "out" 67 (set_row_array [99; 0] (initial_state ∅)) = Ret code s' ->
       exists info,
         GetInfo {| ReadFrame := [Samples.truecolor_frame]; GetInfo := None |}
           = Some info /\
         ((code = 1 /\ HasErrors info = true /\ stdout s' = stdout s1) \/
          (code = 0 /\ HasErrors info = false /\
           stdout s' = stdout s1
                       ++ ["loops=" +:+ fmt_d (LoopCount info) +:+ LF]))).
Proof.
  eexists. split; [vm_compute; reflexivity|].
  apply (info_dereferenced_before_check
           (Samples.run_of [Samples.truecolor_frame] None)
           {| ReadFrame := [Samples.truecolor_frame]; GetInfo := None |}
           "out" 67 (set_row_array [99; 0] (initial_state ∅))).
  vm_compute. reflexivity.
Defined.

(** A whole run whose frame source has no information to give: the frame
    is written and reported, then the null pointer is dereferenced. *)
Example null_info_run :
  exists s',
    main (Samples.run_of [Samples.truecolor_frame] None) (initial_state ∅)
      = Halt (Undefined null_dereference) s' /\
    stdout s' = ["0 delay=7" +:+ LF] /\
    is_Some (files s' !! "out000000.png").
Proof.
  eexists. split; [vm_compute; reflexivity|].
  split; [vm_compute; reflexivity|]. vm_compute. eauto.
Qed.

(** A clean run: exit status 0 and the loop count after the reports. *)
Example clean_run :
  exists s',
    main (Samples.run_of [Samples.truecolor_frame; Samples.indexed_frame]
            (Some {| HasErrors := false; LoopCount := 3 |}))
         (initial_state ∅) = Ret 0 s' /\
    stdout s' = ["0 delay=7" +:+ LF; "1 delay=10" +:+ LF; "loops=3" +:+ LF].
Proof. eexists. split; vm_compute; reflexivity. Qed.

(** * Part III: further properties of the encoder and the driver *)

(** ** Bit-depth rounding on the whole range *)

(** X1: for every [bits_per_pixel] from 1 to [2 ^ 30] the rounding loop
    ends, and its result is the least power of two that is not below the
    input: it is a power of two, at least the input, below twice the
    input, and no power of two in between is skipped. *)
Theorem round_bpp_least_power_of_two (b : Z) :
  1 <= b <= 2 ^ 30 ->
  exists r e,
    round_bpp b = Some r /\
    0 <= e <= 30 /\ r = 2 ^ e /\
    b <= r < 2 * b /\
    (forall k, 0 <= k -> b <= 2 ^ k -> r <= 2 ^ k).
Proof.
  intros Hb. exists (next_pow2 b), (Z.log2_up b).
  split; [by apply round_bpp_total|]. unfold next_pow2.
  assert (Hlog : 0 <= Z.log2_up b <= 30).
  { split; [apply Z.log2_up_nonneg|]. apply Z.log2_up_le_pow2; lia. }
  split; [exact Hlog|]. split; [reflexivity|].
  split.
  - destruct (decide (b = 1)) as [->|Hne]; [cbn; lia|].
    pose proof (Z.log2_up_spec b ltac:(lia)) as [Hlow Hup].
    pose proof (Z.log2_up_pos b ltac:(lia)) as Hpos.
    split; [exact Hup|].
    replace (Z.log2_up b) with (Z.succ (Z.pred (Z.log2_up b))) by lia.
    rewrite Z.pow_succ_r by lia. lia.
  - intros k Hk Hbk. apply Z.pow_le_mono_r; [lia|].
    apply Z.log2_up_le_pow2; lia.
Qed.

Lemma round_bpp_least_power_of_two_witness :
  exists r e,
    round_bpp 1000 = Some r /\
    0 <= e <= 30 /\ r = 2 ^ e /\
    1000 <= r < 2 * 1000 /\
    (forall k, 0 <= k -> 1000 <= 2 ^ k -> r <= 2 ^ k).
Proof. apply (round_bpp_least_power_of_two 1000). lia. Defined.

(** ** The calls of an encode, in order *)

(** X2: an encode call that succeeds has made exactly these calls to
    libpng, in this order: the two allocations, [png_init_io], the header,
    for an indexed frame the palette and then, when there is a transparent
    index, the transparency table, after that the row pointers, the write
    (with the packing transform for an indexed frame only) and the
    release of the writer. *)
Theorem encode_call_sequence E img filename s s' :
  write_image E img filename s = Ret true s' ->
  calls_since s s'
    = [png_create_write_struct; png_create_info_struct;
       png_init_io filename]
      ++ (if IsTruecolor img
          then [png_set_IHDR (Width img) (Height img) 8
                  PNG_COLOR_TYPE_RGB_ALPHA]
          else match ColorMap img with
               | None => []
               | Some cm =>
                   [png_set_IHDR (Width img) (Height img)
                      (default 0 (round_bpp (BitsPerPixel cm)))
                      PNG_COLOR_TYPE_PALETTE;
                    png_set_PLTE
                      (take (Z.to_nat (ColorCount cm)) (Colors cm))
                      (ColorCount cm)]
                   ++ (if decide (TransparentColorIndex img = -1) then []
                       else [png_set_tRNS
                               (replicate
                                  (Z.to_nat (TransparentColorIndex img)) 255
                                ++ [0])
                               (TransparentColorIndex img + 1)])
               end)
      ++ [png_set_rows (take (Z.to_nat (Height img)) (row_array s'));
          png_write_png (if IsTruecolor img then 0
                         else PNG_TRANSFORM_PACKING);
          png_destroy_write_struct true].
Proof.
  unfold_encoder. simpl_state.
  repeat exec_step; try (exfalso; lia);
    intros Hret; try discriminate Hret.
  all: injection Hret as <-; calls_since_norm.
  all: rewrite ?decide_True by done; rewrite ?decide_False by done.
  all: cbn [default app].
  all: rewrite ?wrap_int_id by (unfold in_int, INT_MIN, INT_MAX; lia).
  all: rewrite ?Htab.
  all: reflexivity.
Qed.

Lemma encode_call_sequence_witness :
  exists s',
    write_image Samples.quiet Samples.indexed_frame "a.png" Samples.stale
      = Ret true s' /\
    calls_since Samples.stale s'
    = [png_create_write_struct; png_create_info_struct;
       png_init_io "a.png"]
      ++ (if IsTruecolor Samples.indexed_frame
          then [png_set_IHDR (Width Samples.indexed_frame)
                  (Height Samples.indexed_frame) 8
                  PNG_COLOR_TYPE_RGB_ALPHA]
          else match ColorMap Samples.indexed_frame with
               | None => []
               | Some cm =>
                   [png_set_IHDR (Width Samples.indexed_frame)
                      (Height Samples.indexed_frame)
                      (default 0 (round_bpp (BitsPerPixel cm)))
                      PNG_COLOR_TYPE_PALETTE;
                    png_set_PLTE
                      (take (Z.to_nat (ColorCount cm)) (Colors cm))
                      (ColorCount cm)]
                   ++ (if decide (TransparentColorIndex Samples.indexed_frame
                                  = -1) then []
                       else [png_set_tRNS
                               (replicate
                                  (Z.to_nat (TransparentColorIndex
                                               Samples.indexed_frame)) 255
                                ++ [0])
                               (TransparentColorIndex Samples.indexed_frame
                                + 1)])
               end)
      ++ [png_set_rows (take (Z.to_nat (Height Samples.indexed_frame))
                          (row_array s'));
          png_write_png (if IsTruecolor Samples.indexed_frame then 0
                         else PNG_TRANSFORM_PACKING);
          png_destroy_write_struct true].
Proof.
  eexists. split; [vm_compute; reflexivity|].
  apply (encode_call_sequence Samples.quiet Samples.indexed_frame "a.png"
           Samples.stale).
  vm_compute. reflexivity.
Defined.

(** ** What a call does to the destination, the streams and the standard
    error *)

Lemma list_difference_absent (l : list string) (f : string) :
  f ∉ l -> list_difference l [f] = l.
Proof.
  induction l as [|x l IH]; intros Hf; [done|].
  apply not_elem_of_cons in Hf as [Hne Hf].
  cbn. destruct (decide_rel elem_of x [f]) as [Hin|_].
  - apply list_elem_of_singleton in Hin. congruence.
  - by rewrite IH.
Qed.

Lemma list_difference_head (l : list string) (f : string) :
  f ∉ l -> list_difference (f :: l) [f] = l.
Proof.
  intros Hf. cbn. destruct (decide_rel elem_of f [f]) as [_|Hnin].
  - by apply list_difference_absent.
  - exfalso. apply Hnin. by apply list_elem_of_singleton.
Qed.

(** X3: an encode call that succeeds has replaced the destination:
    whatever the file held before, it now holds bytes of this call's
    [png_write_png] only, from the first one on, and no other file has
    changed.  The call itself printed nothing on the standard error, and
    the stream it opened is closed again. *)
Theorem success_replaces_destination E img filename s s' :
  write_image E img filename s = Ret true s' ->
  filename ∉ open_streams s ->
  (exists calls bytes,
     png_trace s' = calls ++ [png_destroy_write_struct true] /\
     last calls
       = Some (png_write_png (if IsTruecolor img then 0
                              else PNG_TRANSFORM_PACKING)) /\
     files s' = <[filename := bytes]> (files s) /\
     bytes `prefix_of` png_output E calls) /\
  stderr s' = stderr s /\
  open_streams s' = open_streams s.
Proof.
  intros Hrun Hclosed. revert Hrun.
  unfold_encoder. simpl_state.
  repeat exec_step; try (exfalso; lia);
    intros Hret; try discriminate Hret.
  all: injection Hret as <-; simpl_state.
  all: rewrite ?lookup_insert_eq, ?insert_insert_eq; cbn [default app].
  all: split;
    [ eexists _, _; split; [reflexivity|];
      split; [by rewrite last_snoc|]; split; reflexivity |].
  all: split; [reflexivity|].
  all: by apply list_difference_head.
Qed.

Lemma success_replaces_destination_witness :
  exists s',
    write_image Samples.quiet Samples.truecolor_frame "a.png"
      (set_files {[ "a.png" := [1; 2; 3] ]} Samples.stale) = Ret true s' /\
    (exists calls bytes,
       png_trace s' = calls ++ [png_destroy_write_struct true] /\
       last calls = Some (png_write_png 0) /\
       files s' = <[ "a.png" := bytes ]>
                    (files (set_files {[ "a.png" := [1; 2; 3] ]}
                              Samples.stale)) /\
       bytes `prefix_of` png_output Samples.quiet calls) /\
    stderr s' = stderr (set_files {[ "a.png" := [1; 2; 3] ]} Samples.stale) /\
    open_streams s'
      = open_streams (set_files {[ "a.png" := [1; 2; 3] ]} Samples.stale).
Proof.
  eexists. split; [vm_compute; reflexivity|].
  apply (success_replaces_destination Samples.quiet Samples.truecolor_frame
           "a.png" (set_files {[ "a.png" := [1; 2; 3] ]} Samples.stale)).
  - vm_compute. reflexivity.
  - vm_compute. apply not_elem_of_nil.
Defined.

(** X4: an error raised by libpng never leaves the encode call: no call
    ends in a pending [longjmp].  When the allocations were granted and
    the call returns failure, some libpng call of it raised an error, one
    line was printed on the standard error, the writer was released last
    and the stream is closed again. *)
Theorem libpng_error_contained E img filename s :
  (forall s', write_image E img filename s <> Jump s') /\
  (fopen_ok E filename = true ->
   png_create_write_struct_ok E = true ->
   png_create_info_struct_ok E = true ->
   filename ∉ open_streams s ->
   forall s', write_image E img filename s = Ret false s' ->
     (exists c, c ∈ calls_since s s' /\ png_raises E c = true) /\
     stderr s' = stderr s ++ ["libpng returned an error" +:+ LF] /\
     last (png_trace s') = Some (png_destroy_write_struct true) /\
     open_streams s' = open_streams s).
Proof.
  split.
  - intros s'. unfold_encoder. simpl_state.
    repeat exec_step; discriminate.
  - intros Hopen Hws His Hclosed s'.
    unfold_encoder. rewrite Hopen, Hws, His. simpl_state.
    repeat exec_step; try (exfalso; lia);
      intros Hret; try discriminate Hret.
    all: injection Hret as <-; simpl_state.
    all: split;
      [ match goal with
        | H : png_raises _ ?c = true |- _ =>
            exists c; split; [calls_since_norm; has_call; fail | exact H]
        end |].
    all: split; [reflexivity|].
    all: split; [by rewrite last_snoc|].
    all: by apply list_difference_head.
Qed.

Lemma libpng_error_contained_witness :
  (forall s',
     write_image Samples.failing_write Samples.truecolor_frame "a.png"
       Samples.stale <> Jump s') /\
  (forall s',
     write_image Samples.failing_write Samples.truecolor_frame "a.png"
       Samples.stale = Ret false s' ->
     (exists c, c ∈ calls_since Samples.stale s' /\
                png_raises Samples.failing_write c = true) /\
     stderr s' = stderr Samples.stale ++ ["libpng returned an error" +:+ LF] /\
     last (png_trace s') = Some (png_destroy_write_struct true) /\
     open_streams s' = open_streams Samples.stale).
Proof.
  destruct (libpng_error_contained Samples.failing_write
              Samples.truecolor_frame "a.png" Samples.stale) as [Hjump Hret].
  split; [exact Hjump|].
  apply Hret; try reflexivity. vm_compute. apply not_elem_of_nil.
Defined.

(** X5: when one of the two encoder allocations fails, the call returns
    failure without a word on the standard error and without closing the
    stream it opened: the destination, created empty, stays open. *)
Theorem allocation_failure_leaks_stream E img filename s :
  fopen_ok E filename = true ->
  png_create_write_struct_ok E = false \/
  png_create_info_struct_ok E = false ->
  exists s',
    write_image E img filename s = Ret false s' /\
    open_streams s' = filename :: open_streams s /\
    files s' = <[filename := []]> (files s) /\
    stderr s' = stderr s /\
    stdout s' = stdout s /\
    (calls_since s s' = [png_create_write_struct] \/
     calls_since s s' = [png_create_write_struct; png_create_info_struct;
                         png_destroy_write_struct false]).
Proof.
  intros Hopen Halloc.
  unfold_encoder. rewrite Hopen. simpl_state.
  destruct (png_create_write_struct_ok E) eqn:Hws; simpl_state.
  - destruct Halloc as [Hf|Hf]; [discriminate Hf|]. rewrite Hf. simpl_state.
    eexists. split; [reflexivity|]. simpl_state.
    repeat split. right. by calls_since_norm.
  - eexists. split; [reflexivity|]. simpl_state.
    repeat split. left. by calls_since_norm.
Qed.

Lemma allocation_failure_leaks_stream_witness :
  exists s',
    write_image Samples.no_memory Samples.truecolor_frame "a.png"
      Samples.stale = Ret false s' /\
    open_streams s' = "a.png" :: open_streams Samples.stale /\
    files s' = <[ "a.png" := [] ]> (files Samples.stale) /\
    stderr s' = stderr Samples.stale /\
    stdout s' = stdout Samples.stale /\
    (calls_since Samples.stale s' = [png_create_write_struct] \/
     calls_since Samples.stale s'
       = [png_create_write_struct; png_create_info_struct;
          png_destroy_write_struct false]).
Proof.
  apply (allocation_failure_leaks_stream Samples.no_memory
           Samples.truecolor_frame "a.png" Samples.stale);
    [reflexivity | left; reflexivity].
Defined.

(** ** The two paths *)

(** X6: the truecolor path needs no colour table.  For a truecolor frame
    the call reads neither [ColorMap] nor [TransparentColorIndex]: with
    another table or another index it does the same.  It hands over no
    palette and no transparency table, never reaches the assertion on the
    colour table, and the one header it announces, once [png_init_io] is
    through, is 8 bits deep with the RGB-alpha colour type. *)
Theorem truecolor_needs_no_palette E img filename s :
  IsTruecolor img = true ->
  (forall cm k,
     write_image E (with_color_table img cm k) filename s
       = write_image E img filename s) /\
  calls_of_kind is_PLTE E img filename s = [] /\
  calls_of_kind is_tRNS E img filename s = [] /\
  (forall s', write_image E img filename s <> Halt Aborted s') /\
  (reaches_header E filename ->
   calls_of_kind is_IHDR E img filename s
     = [png_set_IHDR (Width img) (Height img) 8 PNG_COLOR_TYPE_RGB_ALPHA]).
Proof.
  intros Htc. split; [|split; [|split; [|split]]].
  - intros cm k.
    unfold write_image, write_image_body, write_header, write_rows.
    cbn [with_color_table IsTruecolor Width Height].
    by rewrite Htc.
  - unfold calls_of_kind. unfold_encoder. rewrite Htc. simpl_state.
    repeat exec_step; try (exfalso; lia); calls_since_norm; reflexivity.
  - unfold calls_of_kind. unfold_encoder. rewrite Htc. simpl_state.
    repeat exec_step; try (exfalso; lia); calls_since_norm; reflexivity.
  - intros s'. unfold_encoder. rewrite Htc. simpl_state.
    repeat exec_step; discriminate.
  - intros (Hopen & Hws & His & Hio).
    unfold calls_of_kind. unfold_encoder.
    rewrite Htc, Hopen, Hws, His, Hio. simpl_state.
    repeat exec_step; try (exfalso; lia); calls_since_norm; reflexivity.
Qed.

Lemma truecolor_needs_no_palette_witness :
  write_image Samples.quiet
    (with_color_table Samples.truecolor_frame (Some Samples.palette4) 1)
    "a.png" Samples.stale
    = write_image Samples.quiet Samples.truecolor_frame "a.png"
        Samples.stale /\
  calls_of_kind is_PLTE Samples.quiet Samples.truecolor_frame "a.png"
    Samples.stale = [] /\
  calls_of_kind is_tRNS Samples.quiet Samples.truecolor_frame "a.png"
    Samples.stale = [] /\
  calls_of_kind is_IHDR Samples.quiet Samples.truecolor_frame "a.png"
    Samples.stale = [png_set_IHDR 2 2 8 PNG_COLOR_TYPE_RGB_ALPHA].
Proof.
  destruct (truecolor_needs_no_palette Samples.quiet Samples.truecolor_frame
              "a.png" Samples.stale eq_refl)
    as (Hsame & Hplte & Htrns & _ & Hihdr).
  split; [apply Hsame|]. split; [exact Hplte|]. split; [exact Htrns|].
  apply Hihdr. repeat split; reflexivity.
Defined.

(** X7: a transparent index that is neither the sentinel -1 nor a byte
    is not rejected by any check.  Once the palette is accepted the code
    builds the table all the same, and the [memset] or the store that
    follows it writes outside the 256 bytes of [trans_alpha], which is
    undefined behaviour.  Up to that point the call has made the five
    set-up calls and no other, has printed nothing and has returned no
    failure. *)
Theorem transparent_index_out_of_range E img filename s
    (cm : ColorMapObject) :
  TransparentColorIndex img < -1 \/ 255 < TransparentColorIndex img ->
  reaches_transparency E img filename cm ->
  exists s',
    write_image E img filename s = Halt (Undefined trans_alpha_overflow) s' /\
    calls_since s s'
      = [png_create_write_struct; png_create_info_struct;
         png_init_io filename;
         png_set_IHDR (Width img) (Height img)
           (default 0 (round_bpp (BitsPerPixel cm))) PNG_COLOR_TYPE_PALETTE;
         png_set_PLTE (take (Z.to_nat (ColorCount cm)) (Colors cm))
           (ColorCount cm)] /\
    stderr s' = stderr s /\
    stdout s' = stdout s.
Proof.
  intros Hk Hreach. reach_transparency Hreach.
  repeat (rewrite ?Hplte; exec_step; try (exfalso; lia)).
  all: eexists; split; [reflexivity|]; simpl_state.
  all: split; [calls_since_norm; reflexivity|]; by split.
Qed.

Lemma transparent_index_out_of_range_witness :
  exists s',
    write_image Samples.quiet Samples.wild_index_frame "a.png" Samples.stale
      = Halt (Undefined trans_alpha_overflow) s' /\
    calls_since Samples.stale s'
      = [png_create_write_struct; png_create_info_struct;
         png_init_io "a.png";
         png_set_IHDR 2 2 2 PNG_COLOR_TYPE_PALETTE;
         png_set_PLTE (Colors Samples.palette4) 4] /\
    stderr s' = stderr Samples.stale /\
    stdout s' = stdout Samples.stale.
Proof.
  apply (transparent_index_out_of_range Samples.quiet
           Samples.wild_index_frame "a.png" Samples.stale Samples.palette4).
  - right. vm_compute. reflexivity.
  - split; [|reflexivity].
    split; [repeat split; reflexivity|].
    split; [reflexivity|]. split; [reflexivity|].
    split; [|vm_compute; discriminate].
    exists 2. split; [vm_compute; reflexivity | reflexivity].
Defined.

(** ** The scratch array beyond the frame *)

(** X8: an encode call writes the first [Height] entries of the scratch
    array and no other: the entries from [Height] on are, after the call
    and however it ended, what they were before. *)
Theorem rows_beyond_height_untouched E img filename s (j : nat) :
  (Z.to_nat (Height img) <= j)%nat ->
  row_array (state_of (write_image E img filename s)) !! j
    = row_array s !! j.
Proof.
  intros Hj. unfold_encoder. simpl_state.
  repeat
    (first
       [ match goal with
         | |- context [fill_rows ?n ?i ?p ?st ?s0] =>
             let Habove := fresh "Habove" in
             pose proof (fill_rows_above n i p st s0 j ltac:(lia) ltac:(lia))
               as Habove;
             destruct (fill_rows n i p st s0) as [[] ?|?|? ?]
           end; simpl_state
       | exec_step ]).
  all: simpl_state; try done.
Qed.

Lemma rows_beyond_height_untouched_witness :
  row_array (state_of (write_image Samples.quiet Samples.truecolor_frame
                         "a.png" Samples.stale)) !! 2%nat
    = row_array Samples.stale !! 2%nat.
Proof.
  apply (rows_beyond_height_untouched Samples.quiet Samples.truecolor_frame
           "a.png" Samples.stale 2). vm_compute. lia.
Defined.

(** ** The footprint of an encode call *)

(** X9: however an encode call ends, it has changed no file but its
    destination and removed none, printed nothing on the standard output,
    left [verbose] and the size of the scratch array alone, and only
    added to the standard error and to the calls libpng has seen. *)
Theorem encode_call_footprint E img filename s :
  (forall g, g <> filename ->
     files (state_of (write_image E img filename s)) !! g = files s !! g) /\
  dom (files s) ⊆ dom (files (state_of (write_image E img filename s))) /\
  stdout (state_of (write_image E img filename s)) = stdout s /\
  verbose (state_of (write_image E img filename s)) = verbose s /\
  length (row_array (state_of (write_image E img filename s)))
    = length (row_array s) /\
  stderr s `prefix_of` stderr (state_of (write_image E img filename s)) /\
  png_trace s `prefix_of` png_trace (state_of (write_image E img filename s)).
Proof.
  assert (Hlog :
    stderr s `prefix_of` stderr (state_of (write_image E img filename s)) /\
    png_trace s
      `prefix_of` png_trace (state_of (write_image E img filename s))).
  { unfold_encoder. simpl_state.
    repeat exec_step; try (exfalso; lia).
    all: split;
      repeat rewrite <- app_assoc;
      first [ apply prefix_app_r; reflexivity | reflexivity ]. }
  destruct (write_image_frame E img filename s)
    as (Hv & Hout & Hlen & Hother & Hkeep & _ & _).
  split; [exact Hother|]. split.
  { intros g Hg. apply elem_of_dom. apply Hkeep. by apply elem_of_dom. }
  split; [exact Hout|]. split; [exact Hv|]. split; [exact Hlen|].
  exact Hlog.
Qed.

(** ** File names *)

Lemma utoa_digits fuel : forall n (k : nat),
  0 <= n < 10 ^ Z.of_nat k -> (1 <= k)%nat ->
  (String.length (utoa fuel n "") <= k)%nat.
Proof.
  induction fuel as [|fuel IH]; intros n k Hn Hk; [cbn; lia|].
  cbn [utoa]. destruct (n / 10 =? 0) eqn:Hq; [cbn; lia|].
  apply Z.eqb_neq in Hq.
  rewrite utoa_acc, length_app_string. cbn.
  destruct k as [|[|k]]; [lia| |].
  - exfalso. apply Hq. apply Z.div_small. cbn in Hn. lia.
  - assert (Hdiv : 0 <= n / 10 < 10 ^ Z.of_nat (S k)).
    { rewrite (Nat2Z.inj_succ (S k)), Z.pow_succ_r in Hn by lia.
      split; [apply Z.div_pos; lia|].
      apply Z.div_lt_upper_bound; lia. }
    specialize (IH (n / 10) (S k) Hdiv ltac:(lia)). lia.
Qed.

(** X10: the name of the file for frame [i] is the output base, the frame
    number in decimal, padded with zeros to six digits, and [.png]; the
    buffer of [strlen(output_base) + 64] bytes never cuts it short; the
    first million frames have names of one length; and two frames never
    share a name. *)
Theorem frame_names_distinct output_base (i j : Z) :
  0 <= i < 2 ^ 31 -> 0 <= j < 2 ^ 31 ->
  frame_name output_base i = output_base +:+ fmt_06d i +:+ ".png" /\
  (String.length (frame_name output_base i)
     < String.length output_base + 64)%nat /\
  (i < 10 ^ 6 ->
   String.length (frame_name output_base i)
     = (String.length output_base + 10)%nat) /\
  (frame_name output_base i = frame_name output_base j -> i = j).
Proof.
  intros Hi Hj.
  pose proof (fmt_06d_length i ltac:(lia)) as Hlen.
  split; [apply frame_name_eq; lia|].
  rewrite (frame_name_eq output_base i) by lia.
  rewrite !length_app_string. cbn [String.length].
  split; [lia|]. split.
  - intros Hsmall. unfold fmt_06d in *.
    rewrite (proj2 (Z.ltb_ge i 0)) in * by lia.
    rewrite zero_pad_length.
    pose proof (utoa_digits 10 i 6 ltac:(cbn; lia) ltac:(lia)). lia.
  - rewrite <- (frame_name_eq output_base i) by lia.
    apply frame_name_inj; lia.
Qed.

Lemma frame_names_distinct_witness :
  frame_name "out" 7 = "out" +:+ fmt_06d 7 +:+ ".png" /\
  (String.length (frame_name "out" 7) < String.length "out" + 64)%nat /\
  (7 < 10 ^ 6 ->
   String.length (frame_name "out" 7) = (String.length "out" + 10)%nat) /\
  (frame_name "out" 7 = frame_name "out" 70 -> 7 = 70).
Proof. apply (frame_names_distinct "out" 7 70); lia. Defined.

(** ** Runs that end before the first frame *)

Lemma option_loop_unknown R opts : forall s,
  Exists (fun opt => opt <> "v"%char) opts ->
  exists s',
    option_loop R opts s = Ret (Some 1) s' /\
    files s' = files s /\ stdout s' = stdout s /\
    png_trace s' = png_trace s /\
    stderr s' = stderr s ++ ["Usage: " +:+ default "" (argv R !! 0%nat)
                             +:+ " [-v] input.gif output_base" +:+ LF].
Proof.
  induction opts as [|opt opts IH]; intros s Hbad.
  - by apply Exists_nil in Hbad.
  - cbn [option_loop]. destruct (decide (opt = "v"%char)) as [->|Hne].
    + apply Exists_cons in Hbad as [Hbad|Hbad]; [done|].
      unfold bind, modify.
      destruct (IH (set_verbose true s) Hbad) as (s' & -> & H).
      by exists s'.
    + unfold usage, bind, eprint, modify, ret.
      eexists. split; [reflexivity|]. by simpl_state.
Qed.

(** X11: when [getopt] reports any option other than [-v], the run prints
    the usage line, naming the program as it was called, and exits with
    status 1; no file is touched, nothing is printed on the standard
    output and libpng is not called. *)
Theorem unknown_option_usage R s :
  Exists (fun opt => opt <> "v"%char) (getopt_returns R) ->
  exists s',
    main R s = Ret 1 s' /\
    stderr s' = stderr s ++ ["Usage: " +:+ default "" (argv R !! 0%nat)
                             +:+ " [-v] input.gif output_base" +:+ LF] /\
    files s' = files s /\ stdout s' = stdout s /\
    png_trace s' = png_trace s.
Proof.
  intros Hbad.
  destruct (option_loop_unknown R _ s Hbad) as (s' & Hrun & Hf & Ho & Ht & He).
  exists s'. unfold main, bind. rewrite Hrun. by unfold ret.
Qed.

Lemma unknown_option_usage_witness :
  exists s',
    main Samples.help_run (initial_state ∅) = Ret 1 s' /\
    stderr s' = stderr (initial_state ∅)
                ++ ["Usage: " +:+ default "" (argv Samples.help_run !! 0%nat)
                    +:+ " [-v] input.gif output_base" +:+ LF] /\
    files s' = files (initial_state ∅) /\
    stdout s' = stdout (initial_state ∅) /\
    png_trace s' = png_trace (initial_state ∅).
Proof.
  apply (unknown_option_usage Samples.help_run (initial_state ∅)).
  apply Exists_cons_tl, Exists_cons_hd. discriminate.
Defined.

Lemma option_loop_sets_verbose R opts : forall s,
  Forall (fun opt => opt = "v"%char) opts ->
  exists v,
    option_loop R opts s = Ret None (set_verbose v s) /\
    (opts = [] -> v = verbose s) /\ (opts <> [] -> v = true).
Proof.
  induction opts as [|opt opts IH]; intros s Hv.
  - exists (verbose s). split; [by destruct s|]. done.
  - apply Forall_cons in Hv as [-> Hv]. cbn [option_loop].
    rewrite decide_True by done. unfold bind, modify.
    destruct (IH (set_verbose true s) Hv) as (v & -> & Hnil & Hcons).
    exists true. split; [|done].
    destruct opts as [|opt opts]; [by rewrite Hnil | by rewrite Hcons].
Qed.

(** X12: when the options are not followed by exactly two arguments, the
    run says so on the standard error and exits with status 1 before it
    opens anything. *)
Theorem wrong_argument_count R s :
  Forall (fun opt => opt = "v"%char) (getopt_returns R) ->
  optind R <> Z.of_nat (length (argv R)) - 2 ->
  exists s',
    main R s = Ret 1 s' /\
    stderr s' = stderr s ++ ["Expected 2 arguments after options" +:+ LF] /\
    files s' = files s /\ stdout s' = stdout s /\
    png_trace s' = png_trace s.
Proof.
  intros Hv Hcount.
  destruct (option_loop_sets_verbose R _ s Hv) as (v & Hopts & _).
  unfold main, bind. rewrite Hopts. rewrite decide_False by done.
  unfold eprint, modify, ret. eexists. split; [reflexivity|].
  by simpl_state.
Qed.

Lemma wrong_argument_count_witness :
  exists s',
    main Samples.one_argument_run (initial_state ∅) = Ret 1 s' /\
    stderr s' = stderr (initial_state ∅)
                ++ ["Expected 2 arguments after options" +:+ LF] /\
    files s' = files (initial_state ∅) /\
    stdout s' = stdout (initial_state ∅) /\
    png_trace s' = png_trace (initial_state ∅).
Proof.
  apply (wrong_argument_count Samples.one_argument_run (initial_state ∅)).
  - repeat constructor.
  - vm_compute. discriminate.
Defined.

(** After the options and the argument count: what is left of [main]
    starts from the state with [verbose] set as the options say. *)
Lemma main_opens R output_base gif handle s :
  run_opens R output_base gif handle ->
  exists v in_filename,
    (v = true \/ v = verbose s) /\
    main R s
    = (dbgprintf ("Opening " +:+ in_filename +:+ "..." +:+ LF) ;;;
       match malloc_rows R gif with
       | None => eprint ("Out of memory" +:+ LF) ;;; ret 1
       | Some rows =>
           modify (set_row_array rows) ;;;
           split_frames R handle output_base
             (String.length output_base + 64)
       end) (set_verbose v s).
Proof.
  intros (Hv & Hind & Hpos & Hmem & in_filename & Hin & Hbase & Hgif
          & Hhandle).
  destruct (option_loop_sets_verbose R _ s Hv) as (v & Hopts & Hnil & Hcons).
  exists v, in_filename. split.
  { destruct (getopt_returns R); [right; by apply Hnil | left; by apply Hcons]. }
  unfold main. unfold bind at 1. rewrite Hopts.
  rewrite decide_True by done.
  unfold arg. rewrite !decide_True by lia. rewrite Hin, Hbase.
  unfold bind at 1, ret. unfold bind at 1. rewrite Hmem. cbn [negb].
  unfold bind. destruct (dbgprintf _ _); try reflexivity.
  by rewrite Hgif, Hhandle.
Qed.

(** X13: when the container cannot be opened, by name or, for the name
    [-], from the standard input, the run reports the name on the
    standard error and exits with status 1; no frame is read, no file is
    touched and nothing is printed on the standard output. *)
Theorem input_not_opened R s in_filename :
  Forall (fun opt => opt = "v"%char) (getopt_returns R) ->
  optind R = Z.of_nat (length (argv R)) - 2 ->
  0 <= optind R ->
  malloc_filename_ok R = true ->
  argv R !! Z.to_nat (optind R) = Some in_filename ->
  (if decide (in_filename = "-") then DGifOpenFileHandle R
   else DGifOpenFileName R in_filename) = None ->
  exists s',
    main R s = Ret 1 s' /\
    last (stderr s') = Some ("Failed to open " +:+ in_filename +:+ LF) /\
    files s' = files s /\ stdout s' = stdout s /\
    png_trace s' = png_trace s.
Proof.
  intros Hv Hind Hpos Hmem Hin Hgif.
  destruct (option_loop_sets_verbose R _ s Hv) as (v & Hopts & _).
  assert (Hbase : is_Some (argv R !! Z.to_nat (optind R + 1))).
  { apply lookup_lt_is_Some. lia. }
  destruct Hbase as [output_base Hbase].
  unfold main. unfold bind at 1. rewrite Hopts.
  rewrite decide_True by done.
  unfold arg. rewrite !decide_True by lia. rewrite Hin, Hbase.
  unfold bind at 1, ret. unfold bind at 1. rewrite Hmem. cbn [negb].
  unfold dbgprintf, bind, get, eprint, modify, ret. simpl_state.
  destruct v; rewrite Hgif; eexists; (split; [reflexivity|]); simpl_state;
    by rewrite last_snoc.
Qed.

Lemma input_not_opened_witness :
  exists s',
    main Samples.closed_stdin_run (initial_state ∅) = Ret 1 s' /\
    last (stderr s') = Some ("Failed to open " +:+ "-" +:+ LF) /\
    files s' = files (initial_state ∅) /\
    stdout s' = stdout (initial_state ∅) /\
    png_trace s' = png_trace (initial_state ∅).
Proof.
  apply (input_not_opened Samples.closed_stdin_run (initial_state ∅) "-");
    try reflexivity.
  - constructor.
  - vm_compute. discriminate.
Defined.

(** X14: when the scratch array cannot be allocated, be it that [malloc]
    refuses or that the screen height of the container is negative, which
    makes the size a huge [size_t], the run prints [Out of memory] and
    exits with status 1 without reading a frame. *)
Theorem scratch_array_not_allocated R output_base gif handle s :
  run_opens R output_base gif handle ->
  malloc_rows_ok R = false \/ (in_int (SHeight gif) /\ SHeight gif < 0) ->
  malloc_rows R gif = None /\
  exists s',
    main R s = Ret 1 s' /\
    last (stderr s') = Some ("Out of memory" +:+ LF) /\
    files s' = files s /\ stdout s' = stdout s /\
    png_trace s' = png_trace s /\ row_array s' = row_array s.
Proof.
  intros Hopen Hwhy.
  assert (Hnone : malloc_rows R gif = None).
  { destruct (malloc_rows R gif) as [rows|] eqn:Hrows; [|done]. exfalso.
    destruct Hwhy as [Hno|[Hint Hneg]].
    - unfold malloc_rows in Hrows. rewrite Hno in Hrows. discriminate Hrows.
    - pose proof (malloc_rows_length R gif rows Hint Hrows). lia. }
  split; [exact Hnone|].
  destruct (main_opens R output_base gif handle s Hopen)
    as (v & in_filename & _ & ->).
  rewrite Hnone.
  unfold dbgprintf, bind, get, eprint, modify, ret. simpl_state.
  destruct v; eexists; (split; [reflexivity|]); simpl_state;
    by rewrite last_snoc.
Qed.

Lemma scratch_array_not_allocated_witness :
  malloc_rows Samples.negative_height_run Samples.negative_gif = None /\
  exists s',
    main Samples.negative_height_run (initial_state ∅) = Ret 1 s' /\
    last (stderr s') = Some ("Out of memory" +:+ LF) /\
    files s' = files (initial_state ∅) /\
    stdout s' = stdout (initial_state ∅) /\
    png_trace s' = png_trace (initial_state ∅) /\
    row_array s' = row_array (initial_state ∅).
Proof.
  apply (scratch_array_not_allocated Samples.negative_height_run "out"
           Samples.negative_gif
           {| ReadFrame := [Samples.truecolor_frame]; GetInfo := None |}
           (initial_state ∅)).
  - split; [constructor|]. split; [reflexivity|].
    split; [vm_compute; discriminate|]. split; [reflexivity|].
    exists "in.gif". repeat split; reflexivity.
  - right. vm_compute. repeat split; discriminate.
Defined.

(** ** The frame loop, however it ends *)

(** The loop reports a prefix of the frames, [j] of them.  Their files
    exist; files that are not the destination of one of the first [j + 1]
    frames are untouched; and the loop stops short only on a failed
    write, which it reports, or on an abnormal end of an encode call. *)
Lemma frame_loop_outcome R output_base frames : forall (k : nat) s r,
  Z.of_nat (k + length frames) < 2 ^ 31 ->
  frame_loop R output_base (String.length output_base + 64) frames
    (Z.of_nat k) s = r ->
  exists j : nat,
    (j <= length frames)%nat /\
    stdout (state_of r)
      = stdout s ++ imap (fun i img => delay_line (Z.of_nat (k + i)) img)
                      (take j frames) /\
    (forall g, is_Some (files s !! g) -> is_Some (files (state_of r) !! g)) /\
    (forall g,
       (forall i : nat, (i <= j)%nat -> (i < length frames)%nat ->
          g <> frame_name output_base (Z.of_nat (k + i))) ->
       files (state_of r) !! g = files s !! g) /\
    (forall i : nat, (i < j)%nat ->
       is_Some (files (state_of r)
                  !! frame_name output_base (Z.of_nat (k + i)))) /\
    length (row_array (state_of r)) = length (row_array s) /\
    match r with
    | Ret None _ => j = length frames
    | Ret (Some code) s' =>
        code = 1 /\ (j < length frames)%nat /\
        last (stderr s')
          = Some ("Failed to write to "
                  +:+ frame_name output_base (Z.of_nat (k + j)) +:+ LF)
    | Halt _ _ => (j < length frames)%nat
    | Jump _ => False
    end.
Proof.
  induction frames as [|img rest IH]; intros k s r Hk Hr.
  - cbn in Hr. subst r. exists 0%nat. cbn. rewrite app_nil_r.
    repeat split; try done. intros i Hi. lia.
  - cbn [frame_loop length] in *.
    set (msg := "Read frame " +:+ _) in Hr.
    assert (Hd : exists sd,
               dbgprintf msg s = Ret tt sd /\ files sd = files s /\
               stdout sd = stdout s /\ row_array sd = row_array s).
    { unfold dbgprintf, bind, get, eprint, modify, ret.
      destruct (verbose s); eexists; (split; [reflexivity|]); by simpl_state. }
    destruct Hd as (sd & Hdbg & Hfd & Hod & Hrd).
    unfold bind at 1 in Hr. rewrite Hdbg in Hr.
    fold (frame_name output_base (Z.of_nat k)) in Hr.
    destruct (write_image_frame (encode_env R (Z.of_nat k)) img
                (frame_name output_base (Z.of_nat k)) sd)
      as (_ & Hout2 & Hlen2 & Hother2 & Hkeep2 & Hnojump & Hsome2).
    unfold bind at 1 in Hr.
    destruct (write_image (encode_env R (Z.of_nat k)) img
                (frame_name output_base (Z.of_nat k)) sd)
      as [[|] s2|s2|h s2] eqn:Henc; cbn [state_of negb] in *.
    + (* the frame is written: report it and go on *)
      unfold bind at 1, print, modify in Hr.
      set (s3 := set_stdout _ s2) in Hr.
      rewrite decide_True in Hr by (unfold INT_MAX; lia).
      replace (Z.of_nat k + 1) with (Z.of_nat (S k)) in Hr by lia.
      destruct (IH (S k) s3 r ltac:(lia) Hr)
        as (j & Hj & Hout & Hkeep & Hother & Hsome & Hlen & Hend).
      assert (Hsame : files (state_of r) !! frame_name output_base (Z.of_nat k)
                      = files s2 !! frame_name output_base (Z.of_nat k)).
      { rewrite Hother; [by subst s3|].
        intros i _ Hi Heq. apply frame_name_inj in Heq; lia. }
      exists (S j). split; [lia|].
      split.
      { rewrite Hout. subst s3. simpl_state. rewrite Hout2, Hod.
        rewrite <- app_assoc. f_equal. cbn [take imap].
        fold (delay_line (Z.of_nat k) img). rewrite Nat.add_0_r. f_equal.
        apply imap_ext. intros i x _. cbn. f_equal. lia. }
      split.
      { intros g Hg. apply Hkeep. subst s3. simpl_state.
        apply Hkeep2. by rewrite Hfd. }
      split.
      { intros g Hg. rewrite Hother.
        - subst s3. simpl_state. rewrite Hother2, Hfd; [done|].
          specialize (Hg 0%nat ltac:(lia) ltac:(lia)).
          by rewrite Nat.add_0_r in Hg.
        - intros i Hi Hlt.
          replace (S k + i)%nat with (k + S i)%nat by lia.
          apply Hg; lia. }
      split.
      { intros [|i] Hi.
        - rewrite Nat.add_0_r, Hsame. by apply Hsome2.
        - replace (k + S i)%nat with (S k + i)%nat by lia.
          apply Hsome. lia. }
      split.
      { rewrite Hlen. subst s3. simpl_state. congruence. }
      destruct r as [[code|] s'|s'|h s']; try done.
      * destruct Hend as (Hcode & Hlt & Hlast).
        split; [done|]. split; [lia|].
        by replace (k + S j)%nat with (S k + j)%nat by lia.
      * lia.
      * lia.
    + (* the write failed: report it and return *)
      unfold bind, eprint, modify, ret in Hr. subst r. cbn [state_of].
      exists 0%nat. simpl_state. cbn [take imap]. rewrite app_nil_r.
      split; [lia|]. split; [congruence|].
      split; [intros g Hg; apply Hkeep2; by rewrite Hfd|].
      split.
      { intros g Hg. rewrite Hother2, Hfd; [done|].
        specialize (Hg 0%nat ltac:(lia) ltac:(lia)).
        by rewrite Nat.add_0_r in Hg. }
      split; [intros i Hi; lia|]. split; [congruence|].
      split; [done|]. split; [lia|].
      by rewrite Nat.add_0_r, last_snoc.
    + by destruct (Hnojump s2).
    + (* the encode call ended abnormally *)
      subst r. cbn [state_of].
      exists 0%nat. cbn [take imap]. rewrite app_nil_r.
      split; [lia|]. split; [congruence|].
      split; [intros g Hg; apply Hkeep2; by rewrite Hfd|].
      split.
      { intros g Hg. rewrite Hother2, Hfd; [done|].
        specialize (Hg 0%nat ltac:(lia) ltac:(lia)).
        by rewrite Nat.add_0_r in Hg. }
      split; [intros i Hi; lia|]. split; [congruence|]. lia.
Qed.

(** ** Runs that reach the frame loop *)

(** What runs that reach the frame loop and return have done. *)
Lemma main_outcome_after_start R output_base handle rows s code s' :
  run_starts R output_base handle rows ->
  Z.of_nat (length (ReadFrame handle)) < 2 ^ 31 ->
  main R s = Ret code s' ->
  exists j : nat,
    (j <= length (ReadFrame handle))%nat /\
    (forall i : nat, (i < j)%nat ->
       is_Some (files s' !! frame_name output_base (Z.of_nat i))) /\
    (forall i : nat, (j < i)%nat -> (i < length (ReadFrame handle))%nat ->
       files s' !! frame_name output_base (Z.of_nat i)
         = files s !! frame_name output_base (Z.of_nat i)) /\
    (forall g, is_Some (files s !! g) -> is_Some (files s' !! g)) /\
    (((j < length (ReadFrame handle))%nat /\ code = 1 /\
      stdout s'
        = stdout s ++ imap (fun i img => delay_line (Z.of_nat i) img)
                        (take j (ReadFrame handle)) /\
      last (stderr s')
        = Some ("Failed to write to "
                +:+ frame_name output_base (Z.of_nat j) +:+ LF))
     \/
     (j = length (ReadFrame handle) /\
      exists info,
        GetInfo handle = Some info /\
        ((HasErrors info = true /\ code = 1 /\
          stdout s'
            = stdout s ++ imap (fun i img => delay_line (Z.of_nat i) img)
                            (ReadFrame handle))
         \/
         (HasErrors info = false /\ code = 0 /\
          stdout s'
            = stdout s ++ imap (fun i img => delay_line (Z.of_nat i) img)
                            (ReadFrame handle)
              ++ ["loops=" +:+ fmt_d (LoopCount info) +:+ LF])))).
Proof.
  intros Hstart Hcount.
  destruct (main_starts R output_base handle rows s Hstart)
    as (s1 & -> & Hf1 & Ho1 & Hr1).
  unfold split_frames, bind.
  destruct (frame_loop_outcome R output_base (ReadFrame handle) 0%nat s1 _
              ltac:(cbn; lia) eq_refl)
    as (j & Hj & Hout & Hkeep & Hother & Hsome & _ & Hend).
  change (Z.of_nat 0) with 0 in *.
  destruct (frame_loop R output_base (String.length output_base + 64)
              (ReadFrame handle) 0 s1) as [[c|] s2|s2|h s2];
    cbn [state_of Nat.add] in *; try done.
  - (* stopped at a failed write *)
    destruct Hend as (-> & Hlt & Hlast).
    unfold ret. intros Hret. injection Hret as <- <-.
    exists j. split; [lia|]. split; [exact Hsome|].
    split.
    { intros i Hji Hi. rewrite <- Hf1. apply Hother.
      intros i' Hi' _ Heq. apply frame_name_inj in Heq; lia. }
    split; [intros g Hg; apply Hkeep; by rewrite Hf1|].
    left. split; [done|]. split; [done|]. split; [by rewrite Hout, Ho1|done].
  - (* all frames written *)
    subst j. rewrite firstn_all in Hout. unfold end_of_run.
    destruct (GetInfo handle) as [info|]; [|discriminate].
    unfold bind, eprint, print, modify, ret.
    destruct (HasErrors info) eqn:Herr; intros Hret;
      injection Hret as <- <-; simpl_state;
      exists (length (ReadFrame handle)); (split; [lia|]);
      (split; [exact Hsome|]); (split; [intros i Hi Hlt; lia|]);
      (split; [intros g Hg; apply Hkeep; by rewrite Hf1|]);
      right; (split; [done|]); exists info; (split; [done|]);
      [left | right]; (split; [done|]); (split; [done|]);
      rewrite Hout, Ho1; by rewrite <- ?app_assoc.
Qed.

(** X15: a run that reaches the frame loop and returns an exit status has
    reported a prefix of the frames, in order, and written their files.
    Either it stopped at the first write that failed, with status 1 and
    the name of that file on the standard error, and then the files of
    the frames after it are as they were before the run; or it went
    through all frames, and then the status is 1 when the frame source
    reports errors and 0, after the loop count line, when it does not. *)
Theorem run_reports_prefix R output_base handle rows s code s' :
  run_starts R output_base handle rows ->
  Z.of_nat (length (ReadFrame handle)) < 2 ^ 31 ->
  main R s = Ret code s' ->
  exists j : nat,
    (j <= length (ReadFrame handle))%nat /\
    (forall i : nat, (i < j)%nat ->
       is_Some (files s' !! frame_name output_base (Z.of_nat i))) /\
    (forall i : nat, (j < i)%nat -> (i < length (ReadFrame handle))%nat ->
       files s' !! frame_name output_base (Z.of_nat i)
         = files s !! frame_name output_base (Z.of_nat i)) /\
    (forall g, is_Some (files s !! g) -> is_Some (files s' !! g)) /\
    (((j < length (ReadFrame handle))%nat /\ code = 1 /\
      stdout s'
        = stdout s ++ imap (fun i img => delay_line (Z.of_nat i) img)
                        (take j (ReadFrame handle)) /\
      last (stderr s')
        = Some ("Failed to write to "
                +:+ frame_name output_base (Z.of_nat j) +:+ LF))
     \/
     (j = length (ReadFrame handle) /\
      exists info,
        GetInfo handle = Some info /\
        ((HasErrors info = true /\ code = 1 /\
          stdout s'
            = stdout s ++ imap (fun i img => delay_line (Z.of_nat i) img)
                            (ReadFrame handle))
         \/
         (HasErrors info = false /\ code = 0 /\
          stdout s'
            = stdout s ++ imap (fun i img => delay_line (Z.of_nat i) img)
                            (ReadFrame handle)
              ++ ["loops=" +:+ fmt_d (LoopCount info) +:+ LF])))).
Proof. apply main_outcome_after_start. Qed.

Lemma run_reports_prefix_witness :
  exists code s' (j : nat),
    main Samples.second_write_fails (initial_state ∅) = Ret code s' /\
    (j <= 3)%nat /\
    (forall i : nat, (i < j)%nat ->
       is_Some (files s' !! frame_name "out" (Z.of_nat i))) /\
    (forall i : nat, (j < i)%nat -> (i < 3)%nat ->
       files s' !! frame_name "out" (Z.of_nat i)
         = files (initial_state ∅) !! frame_name "out" (Z.of_nat i)) /\
    (forall g, is_Some (files (initial_state ∅) !! g) ->
       is_Some (files s' !! g)) /\
    (((j < 3)%nat /\ code = 1 /\
      stdout s'
        = stdout (initial_state ∅)
          ++ imap (fun i img => delay_line (Z.of_nat i) img)
               (take j [Samples.truecolor_frame; Samples.indexed_frame;
                        Samples.truecolor_frame]) /\
      last (stderr s')
        = Some ("Failed to write to "
                +:+ frame_name "out" (Z.of_nat j) +:+ LF))
     \/
     (j = 3%nat /\
      exists info,
        Some {| HasErrors := false; LoopCount := 0 |} = Some info /\
        ((HasErrors info = true /\ code = 1 /\
          stdout s'
            = stdout (initial_state ∅)
              ++ imap (fun i img => delay_line (Z.of_nat i) img)
                   [Samples.truecolor_frame; Samples.indexed_frame;
                    Samples.truecolor_frame])
         \/
         (HasErrors info = false /\ code = 0 /\
          stdout s'
            = stdout (initial_state ∅)
              ++ imap (fun i img => delay_line (Z.of_nat i) img)
                   [Samples.truecolor_frame; Samples.indexed_frame;
                    Samples.truecolor_frame]
              ++ ["loops=" +:+ fmt_d (LoopCount info) +:+ LF])))).
Proof.
  assert (Hrun : exists s',
             main Samples.second_write_fails (initial_state ∅) = Ret 1 s')
    by (eexists; vm_compute; reflexivity).
  destruct Hrun as [s' Hrun].
  assert (Hstart : run_starts Samples.second_write_fails "out"
            {| ReadFrame := [Samples.truecolor_frame; Samples.indexed_frame;
                             Samples.truecolor_frame];
               GetInfo := Some {| HasErrors := false; LoopCount := 0 |} |}
            [99; 0]).
  { split; [constructor|]. split; [reflexivity|].
    split; [vm_compute; discriminate|]. split; [reflexivity|].
    exists "in.gif", Samples.small_gif. repeat split; reflexivity. }
  destruct (run_reports_prefix Samples.second_write_fails "out" _ _
              (initial_state ∅) 1 s' Hstart ltac:(vm_compute; reflexivity)
              Hrun) as (j & H).
  exists 1, s', j. split; [exact Hrun | exact H].
Defined.

(** A run whose second destination cannot be opened: one report, status
    1, the third frame never written. *)
Example second_write_fails_run :
  exists s',
    main Samples.second_write_fails (initial_state ∅) = Ret 1 s' /\
    stdout s' = ["0 delay=7" +:+ LF] /\
    stderr s' = ["Failed to write to out000001.png" +:+ LF] /\
    map (fun f => from_option (fun _ => true) false (files s' !! f))
      ["out000000.png"; "out000001.png"; "out000002.png"]
      = [true; false; false].
Proof.
  eexists. split; [vm_compute; reflexivity|].
  split; [vm_compute; reflexivity|].
  split; vm_compute; reflexivity.
Qed.

(** A run either reaches the frame loop or ends before it with the files,
    the standard output and the libpng calls as they were, and not with
    status 0. *)
Lemma option_loop_cases R opts : forall s,
  (Forall (fun opt => opt = "v"%char) opts /\
   exists s0, option_loop R opts s = Ret None s0) \/
  (exists s0,
     option_loop R opts s = Ret (Some 1) s0 /\
     files s0 = files s /\ stdout s0 = stdout s /\
     png_trace s0 = png_trace s).
Proof.
  induction opts as [|opt opts IH]; intros s.
  - left. split; [constructor|]. by exists s.
  - cbn [option_loop]. destruct (decide (opt = "v"%char)) as [->|Hne].
    + unfold bind, modify.
      destruct (IH (set_verbose true s)) as [[Hv [s0 Hs0]]|(s0 & Hs0 & H)].
      * left. split; [by constructor|]. by exists s0.
      * right. by exists s0.
    + right. unfold usage, bind, eprint, modify, ret.
      eexists. split; [reflexivity|]. by simpl_state.
Qed.

Lemma main_cases R s :
  (exists output_base handle rows, run_starts R output_base handle rows) \/
  (files (state_of (main R s)) = files s /\
   stdout (state_of (main R s)) = stdout s /\
   png_trace (state_of (main R s)) = png_trace s /\
   forall s', main R s <> Ret 0 s').
Proof.
  remember (main R s) as r eqn:Hr.
  assert (Hearly : forall (msgs : list string) (h : result Z),
            r = h ->
            (exists code, code <> 0 /\ h = Ret code (set_stderr msgs s)) \/
            (exists v code, code <> 0 /\
               h = Ret code (set_stderr msgs (set_verbose v s))) \/
            (exists v what,
               h = Halt what (set_verbose v s)) ->
            files (state_of r) = files s /\ stdout (state_of r) = stdout s /\
            png_trace (state_of r) = png_trace s /\
            forall s', r <> Ret 0 s').
  { intros msgs h -> [(code & Hc & ->)|[(v & code & Hc & ->)|(v & what & ->)]];
      cbn [state_of]; simpl_state; repeat split; try done;
      intros s' Heq; injection Heq as -> _; done. }
  destruct (option_loop_cases R (getopt_returns R) s)
    as [[Hv _]|(s0 & Hs0 & Hf & Ho & Ht)].
  2:{ right. unfold main, bind in Hr. rewrite Hs0 in Hr. unfold ret in Hr.
      subst r. cbn [state_of]. repeat split; try done. }
  destruct (option_loop_sets_verbose R _ s Hv) as (v & Hopts & _).
  unfold main in Hr. unfold bind at 1 in Hr. rewrite Hopts in Hr.
  destruct (decide (optind R = Z.of_nat (length (argv R)) - 2)) as [Hind|Hind].
  2:{ right. unfold bind, eprint, modify, ret in Hr.
      eapply Hearly; [exact Hr|]. right; left. by eexists v, 1. }
  unfold arg in Hr.
  destruct (decide (0 <= optind R)) as [Hpos|Hneg].
  2:{ right. unfold bind, halt_with in Hr.
      eapply (Hearly []); [exact Hr|]. right; right. by eexists v, _. }
  destruct (argv R !! Z.to_nat (optind R)) as [in_filename|] eqn:Hin.
  2:{ right. unfold bind, halt_with in Hr.
      eapply (Hearly []); [exact Hr|]. right; right. by eexists v, _. }
  unfold bind at 1, ret in Hr. rewrite decide_True in Hr by lia.
  destruct (argv R !! Z.to_nat (optind R + 1)) as [output_base|] eqn:Hbase.
  2:{ right. unfold bind, halt_with in Hr.
      eapply (Hearly []); [exact Hr|]. right; right. by eexists v, _. }
  unfold bind at 1 in Hr.
  destruct (malloc_filename_ok R) eqn:Hmem; cbn [negb] in Hr.
  2:{ right. unfold bind, eprint, modify, ret in Hr.
      eapply Hearly; [exact Hr|]. right; left. by eexists v, 1. }
  unfold dbgprintf, bind, get, eprint, modify, ret in Hr. simpl_state.
  destruct (if decide (in_filename = "-") then DGifOpenFileHandle R
            else DGifOpenFileName R in_filename) as [gif|] eqn:Hgif.
  2:{ right. destruct v; (eapply Hearly; [exact Hr|]); right; left;
        by eexists _, 1. }
  destruct (GifSplitterOpen R gif) as [handle|] eqn:Hhandle.
  2:{ right. destruct v; (eapply Hearly; [exact Hr|]); right; left;
        by eexists _, 1. }
  destruct (malloc_rows R gif) as [rows|] eqn:Hrows.
  2:{ right. destruct v; (eapply Hearly; [exact Hr|]); right; left;
        by eexists _, 1. }
  left. exists output_base, handle, rows.
  split; [done|]. split; [done|]. split; [done|]. split; [done|].
  by exists in_filename, gif.
Qed.

(** A loop that runs to its end has had every encode call return success,
    and each frame's file is at the end what its call left. *)
Lemma frame_loop_completed R output_base frames : forall (k : nat) s s',
  Z.of_nat (k + length frames) < 2 ^ 31 ->
  frame_loop R output_base (String.length output_base + 64) frames
    (Z.of_nat k) s = Ret None s' ->
  forall (i : nat) img,
    frames !! i = Some img ->
    exists s1 s2,
      write_image (encode_env R (Z.of_nat (k + i))) img
        (frame_name output_base (Z.of_nat (k + i))) s1 = Ret true s2 /\
      files s' !! frame_name output_base (Z.of_nat (k + i))
        = files s2 !! frame_name output_base (Z.of_nat (k + i)) /\
      is_Some (files s' !! frame_name output_base (Z.of_nat (k + i))).
Proof.
  induction frames as [|img rest IH]; intros k s s' Hk Hr i img' Hi; [done|].
  cbn [frame_loop length] in *.
  set (msg := "Read frame " +:+ _) in Hr.
  assert (Hd : exists sd, dbgprintf msg s = Ret tt sd).
  { unfold dbgprintf, bind, get, eprint, modify, ret.
    destruct (verbose s); eexists; reflexivity. }
  destruct Hd as (sd & Hdbg).
  unfold bind at 1 in Hr. rewrite Hdbg in Hr.
  fold (frame_name output_base (Z.of_nat k)) in Hr.
  destruct (write_image_frame (encode_env R (Z.of_nat k)) img
              (frame_name output_base (Z.of_nat k)) sd)
    as (_ & _ & _ & _ & _ & _ & Hsome2).
  unfold bind at 1 in Hr.
  destruct (write_image (encode_env R (Z.of_nat k)) img
              (frame_name output_base (Z.of_nat k)) sd)
    as [[|] s2|s2|h s2] eqn:Henc; cbn [negb] in Hr;
    [| unfold bind, eprint, modify, ret in Hr; discriminate Hr
     | discriminate Hr | discriminate Hr ].
  unfold bind at 1, print, modify in Hr.
  set (s3 := set_stdout _ s2) in Hr.
  rewrite decide_True in Hr by (unfold INT_MAX; lia).
  replace (Z.of_nat k + 1) with (Z.of_nat (S k)) in Hr by lia.
  destruct i as [|i].
  - injection Hi as <-. rewrite Nat.add_0_r. exists sd, s2.
    split; [exact Henc|].
    destruct (frame_loop_outcome R output_base rest (S k) s3 _ ltac:(lia) Hr)
      as (j & _ & _ & _ & Hother & _).
    cbn [state_of] in Hother.
    assert (Hsame : files s' !! frame_name output_base (Z.of_nat k)
                    = files s2 !! frame_name output_base (Z.of_nat k)).
    { rewrite Hother; [by subst s3|].
      intros i _ Hlt Heq. apply frame_name_inj in Heq; lia. }
    split; [exact Hsame|]. rewrite Hsame. by apply Hsome2.
  - replace (k + S i)%nat with (S k + i)%nat by lia.
    apply (IH (S k) s3 s' ltac:(lia) Hr i img' Hi).
Qed.

(** A run that reaches the frame loop and returns 0 has run the loop to
    its end; the report that follows changes no file. *)
Lemma main_zero_loop R output_base handle rows s s' :
  run_starts R output_base handle rows ->
  Z.of_nat (length (ReadFrame handle)) < 2 ^ 31 ->
  main R s = Ret 0 s' ->
  exists s1 s2,
    frame_loop R output_base (String.length output_base + 64)
      (ReadFrame handle) 0 s1 = Ret None s2 /\
    files s' = files s2.
Proof.
  intros Hstart Hcount.
  destruct (main_starts R output_base handle rows s Hstart)
    as (s1 & -> & _).
  unfold split_frames, bind.
  destruct (frame_loop_outcome R output_base (ReadFrame handle) 0%nat s1 _
              ltac:(cbn; lia) eq_refl)
    as (j & _ & _ & _ & _ & _ & _ & Hend).
  change (Z.of_nat 0) with 0 in *.
  destruct (frame_loop R output_base (String.length output_base + 64)
              (ReadFrame handle) 0 s1) as [[c|] s2|s2|h s2] eqn:Hloop;
    try discriminate.
  - destruct Hend as (-> & _). unfold ret. discriminate.
  - unfold end_of_run. destruct (GetInfo handle) as [info|]; [|discriminate].
    unfold bind, eprint, print, modify, ret.
    destruct (HasErrors info); intros Hret; [discriminate Hret|].
    injection Hret as <-. by exists s1, s2.
Qed.

(** X16: exit status 0 speaks for the whole run: the options and the
    arguments were in order, everything opened, the encode call of every
    frame of the source returned success and the frame was reported, the
    frame source reported no error, and the loop count line came last.
    Each frame's file exists at the end and is what its encode call left:
    the status vouches for the return values of the encode calls, which
    is as far as the code looks. *)
Theorem exit_status_zero R s s' :
  (forall gif handle,
     GifSplitterOpen R gif = Some handle ->
     Z.of_nat (length (ReadFrame handle)) < 2 ^ 31) ->
  main R s = Ret 0 s' ->
  exists output_base handle rows info,
    run_starts R output_base handle rows /\
    GetInfo handle = Some info /\
    HasErrors info = false /\
    stdout s'
      = stdout s ++ imap (fun i img => delay_line (Z.of_nat i) img)
                      (ReadFrame handle)
        ++ ["loops=" +:+ fmt_d (LoopCount info) +:+ LF] /\
    (forall (i : nat) img,
       ReadFrame handle !! i = Some img ->
       exists s1 s2,
         write_image (encode_env R (Z.of_nat i)) img
           (frame_name output_base (Z.of_nat i)) s1 = Ret true s2 /\
         files s' !! frame_name output_base (Z.of_nat i)
           = files s2 !! frame_name output_base (Z.of_nat i) /\
         is_Some (files s' !! frame_name output_base (Z.of_nat i))).
Proof.
  intros Hbound Hrun.
  destruct (main_cases R s) as [(output_base & handle & rows & Hstart)|Hearly].
  2:{ destruct Hearly as (_ & _ & _ & Hnot). by destruct (Hnot s'). }
  assert (Hcount : Z.of_nat (length (ReadFrame handle)) < 2 ^ 31).
  { destruct Hstart as (_ & _ & _ & _ & fn & gif & _ & _ & _ & Hh & _).
    by apply (Hbound gif). }
  destruct (main_zero_loop R output_base handle rows s s' Hstart Hcount Hrun)
    as (s1 & s2 & Hloop & Hfiles).
  pose proof (frame_loop_completed R output_base (ReadFrame handle) 0%nat
                s1 s2 ltac:(cbn; lia) Hloop) as Hdone.
  destruct (main_outcome_after_start R output_base handle rows s 0 s'
              Hstart Hcount Hrun)
    as (j & Hj & _ & _ & _ & [(_ & Hcode & _)|(-> & info & Hinfo & Hend)]).
  { discriminate Hcode. }
  destruct Hend as [(_ & Hcode & _)|(Herr & _ & Hout)]; [discriminate Hcode|].
  exists output_base, handle, rows, info.
  split; [done|]. split; [done|]. split; [done|]. split; [done|].
  intros i img Hi. rewrite Hfiles. by apply Hdone.
Qed.

Lemma exit_status_zero_witness :
  exists s' output_base handle rows info,
    main Samples.clean_two_frames (initial_state ∅) = Ret 0 s' /\
    run_starts Samples.clean_two_frames output_base handle rows /\
    GetInfo handle = Some info /\
    HasErrors info = false /\
    stdout s'
      = stdout (initial_state ∅)
        ++ imap (fun i img => delay_line (Z.of_nat i) img) (ReadFrame handle)
        ++ ["loops=" +:+ fmt_d (LoopCount info) +:+ LF] /\
    (forall (i : nat) img,
       ReadFrame handle !! i = Some img ->
       exists s1 s2,
         write_image (encode_env Samples.clean_two_frames (Z.of_nat i)) img
           (frame_name output_base (Z.of_nat i)) s1 = Ret true s2 /\
         files s' !! frame_name output_base (Z.of_nat i)
           = files s2 !! frame_name output_base (Z.of_nat i) /\
         is_Some (files s' !! frame_name output_base (Z.of_nat i))).
Proof.
  assert (Hrun : exists s',
    main Samples.clean_two_frames (initial_state ∅) = Ret 0 s')
    by (eexists; vm_compute; reflexivity).
  destruct Hrun as [s' Hrun]. exists s'.
  assert (Hbound : forall gif handle,
            GifSplitterOpen Samples.clean_two_frames gif = Some handle ->
            Z.of_nat (length (ReadFrame handle)) < 2 ^ 31).
  { intros gif handle Hh. cbn in Hh. injection Hh as <-.
    vm_compute. reflexivity. }
  destruct (exit_status_zero Samples.clean_two_frames (initial_state ∅) s'
              Hbound Hrun)
    as (output_base & handle & rows & info & H).
  exists output_base, handle, rows, info. split; [exact Hrun | exact H].
Defined.

(** X17: a run that reaches the frame loop, however it ends, touches no
    file other than the files of its frames, and removes none. *)
Theorem only_frame_files_touched R output_base handle rows s :
  run_starts R output_base handle rows ->
  Z.of_nat (length (ReadFrame handle)) < 2 ^ 31 ->
  (forall g,
     (forall i : nat, (i < length (ReadFrame handle))%nat ->
        g <> frame_name output_base (Z.of_nat i)) ->
     files (state_of (main R s)) !! g = files s !! g) /\
  (forall g, is_Some (files s !! g) ->
     is_Some (files (state_of (main R s)) !! g)).
Proof.
  intros Hstart Hcount.
  destruct (main_starts R output_base handle rows s Hstart)
    as (s1 & -> & Hf1 & Ho1 & Hr1).
  unfold split_frames, bind.
  destruct (frame_loop_outcome R output_base (ReadFrame handle) 0%nat s1 _
              ltac:(cbn; lia) eq_refl)
    as (j & Hj & _ & Hkeep & Hother & _ & _ & Hend).
  change (Z.of_nat 0) with 0 in *.
  assert (Hfiles :
    forall r : result Z,
      files (state_of r)
        = files (state_of (frame_loop R output_base
                             (String.length output_base + 64)
                             (ReadFrame handle) 0 s1)) ->
      (forall g,
         (forall i : nat, (i < length (ReadFrame handle))%nat ->
            g <> frame_name output_base (Z.of_nat i)) ->
         files (state_of r) !! g = files s !! g) /\
      (forall g, is_Some (files s !! g) -> is_Some (files (state_of r) !! g))).
  { intros r ->. split.
    - intros g Hg. rewrite <- Hf1. apply Hother. intros i _ Hi.
      cbn [Nat.add]. by apply Hg.
    - intros g Hg. apply Hkeep. by rewrite Hf1. }
  apply Hfiles.
  destruct (frame_loop R output_base (String.length output_base + 64)
              (ReadFrame handle) 0 s1) as [[c|] s2|s2|h s2];
    cbn [state_of]; try done.
  unfold end_of_run. destruct (GetInfo handle) as [info|]; [|done].
  unfold bind, eprint, print, modify, ret.
  by destruct (HasErrors info).
Qed.

Lemma only_frame_files_touched_witness :
  (forall g,
     (forall i : nat, (i < 3)%nat -> g <> frame_name "out" (Z.of_nat i)) ->
     files (state_of (main Samples.second_write_fails
                        (set_files {[ "notes.txt" := [1] ]}
                           (initial_state ∅)))) !! g
       = files (set_files {[ "notes.txt" := [1] ]} (initial_state ∅)) !! g) /\
  (forall g,
     is_Some (files (set_files {[ "notes.txt" := [1] ]} (initial_state ∅))
                !! g) ->
     is_Some (files (state_of (main Samples.second_write_fails
                                 (set_files {[ "notes.txt" := [1] ]}
                                    (initial_state ∅)))) !! g)).
Proof.
  apply (only_frame_files_touched Samples.second_write_fails "out"
           {| ReadFrame := [Samples.truecolor_frame; Samples.indexed_frame;
                            Samples.truecolor_frame];
              GetInfo := Some {| HasErrors := false; LoopCount := 0 |} |}
           [99; 0]).
  - split; [constructor|]. split; [reflexivity|].
    split; [vm_compute; discriminate|]. split; [reflexivity|].
    exists "in.gif", Samples.small_gif. repeat split; reflexivity.
  - vm_compute. reflexivity.
Defined.

(** ** The verbose flag *)

Lemma blind_ret {A} (a : A) : blind (ret a).
Proof. by intros s1 s2 H. Qed.

Lemma blind_halt {A} (h : halt) : blind (halt_with (A := A) h).
Proof. by intros s1 s2 H. Qed.

Lemma blind_longjmp {A} : blind (longjmp (A := A)).
Proof. by intros s1 s2 H. Qed.

Lemma blind_bind {A B} (m : M A) (k : A -> M B) :
  blind m -> (forall a, blind (k a)) -> blind (bind m k).
Proof.
  intros Hm Hk s1 s2 H. unfold bind. specialize (Hm s1 s2 H).
  destruct (m s1) as [a1 t1|t1|h1 t1], (m s2) as [a2 t2|t2|h2 t2];
    cbn in Hm; try done.
  destruct Hm as [-> Ht]. by apply Hk.
Qed.

Lemma blind_setjmp {A} (m handler : M A) :
  blind m -> blind handler -> blind (setjmp m handler).
Proof.
  intros Hm Hh s1 s2 H. unfold setjmp. specialize (Hm s1 s2 H).
  destruct (m s1) as [a1 t1|t1|h1 t1], (m s2) as [a2 t2|t2|h2 t2];
    cbn in Hm; try done.
  by apply Hh.
Qed.

Lemma blind_modify (f : State -> State) :
  (forall s1 s2, quiet_eq s1 s2 -> quiet_eq (f s1) (f s2)) ->
  blind (modify f).
Proof. intros Hf s1 s2 H. cbn. split; [done|]. by apply Hf. Qed.

Lemma blind_get {A} (f : State -> A) :
  (forall s1 s2, quiet_eq s1 s2 -> f s1 = f s2) -> blind (get f).
Proof. intros Hf s1 s2 H. cbn. split; [by apply Hf | done]. Qed.

Ltac quiet_fields :=
  let H := fresh in
  intros ? ? H; unfold quiet_eq in *; simpl_state;
  destruct H as (? & ? & ? & ? & ?);
  repeat split; congruence.

Lemma blind_eprint line : blind (eprint line).
Proof. apply blind_modify. quiet_fields. Qed.

Lemma blind_print line : blind (print line).
Proof. apply blind_modify. quiet_fields. Qed.

Lemma blind_dbgprintf text : blind (dbgprintf text).
Proof.
  intros s1 s2 H. unfold dbgprintf, bind, get, eprint, modify, ret.
  destruct (verbose s1), (verbose s2); cbn; (split; [done|]);
    revert H; unfold quiet_eq; simpl_state; tauto.
Qed.

(** One step in the proof that a computation is blind. *)
Ltac blind_step :=
  first
    [ apply blind_ret | apply blind_halt | apply blind_longjmp
    | apply blind_eprint | apply blind_print | apply blind_dbgprintf
    | apply blind_modify; quiet_fields
    | apply blind_get; quiet_fields
    | apply blind_setjmp
    | apply blind_bind; [|intros ?]
    | match goal with
      | |- blind (if ?b then _ else _) => destruct b
      | |- blind (match ?x with _ => _ end) => destruct x
      end ].

Lemma blind_fill_rows n : forall i p stride, blind (fill_rows n i p stride).
Proof.
  induction n as [|n IH]; intros i p stride; cbn [fill_rows].
  - apply blind_ret.
  - unfold store. repeat blind_step. apply IH.
Qed.

Lemma blind_write_image E img filename : blind (write_image E img filename).
Proof.
  unfold write_image, write_image_body, write_header, write_rows, png,
    do_png_write_png, build_trans_alpha, memset, store, read_array,
    assert_ptr, log_call, fopen_wb, fwrite, fclose.
  cbv zeta.
  repeat first [apply blind_fill_rows | blind_step].
Qed.

Lemma blind_frame_loop R output_base fn_len frames : forall frame,
  blind (frame_loop R output_base fn_len frames frame).
Proof.
  induction frames as [|img rest IH]; intros frame; cbn [frame_loop].
  - apply blind_ret.
  - cbv zeta. repeat first [apply blind_write_image | apply IH | blind_step].
Qed.

Lemma blind_split_frames R handle output_base fn_len :
  blind (split_frames R handle output_base fn_len).
Proof.
  unfold split_frames, end_of_run. cbv zeta.
  repeat first [apply blind_frame_loop | blind_step].
Qed.

Lemma blind_option_loop R opts : blind (option_loop R opts).
Proof.
  induction opts as [|opt opts IH]; cbn [option_loop].
  - apply blind_ret.
  - unfold usage. repeat first [apply IH | blind_step].
Qed.

Lemma frame_loop_add_v R output_base fn_len frames : forall frame s,
  frame_loop (add_v R) output_base fn_len frames frame s
    = frame_loop R output_base fn_len frames frame s.
Proof.
  induction frames as [|img rest IH]; intros frame s; [done|].
  cbn [frame_loop encode_env add_v]. unfold bind.
  destruct (dbgprintf _ s) as [[] s1| |]; try done.
  destruct (write_image _ _ _ s1) as [[|] s2| |]; try done.
  cbn [negb]. destruct (print _ s2) as [[] s3| |]; try done.
  by case_decide.
Qed.

Lemma option_loop_add_v R argv0 rest opts : forall s,
  argv R = argv0 :: rest ->
  option_loop (add_v R) opts s = option_loop R opts s.
Proof.
  induction opts as [|opt opts IH]; intros s Hargv; [done|].
  cbn [option_loop]. case_decide.
  - unfold bind, modify. by apply IH.
  - cbn [argv add_v]. by rewrite Hargv.
Qed.

Lemma split_frames_add_v R handle output_base fn_len s :
  split_frames (add_v R) handle output_base fn_len s
    = split_frames R handle output_base fn_len s.
Proof. unfold split_frames, bind. by rewrite frame_loop_add_v. Qed.

Lemma argv_add_v R argv0 rest (i : Z) :
  argv R = argv0 :: rest -> 1 <= i ->
  argv (add_v R) !! Z.to_nat (i + 1) = argv R !! Z.to_nat i.
Proof.
  intros Hargv Hi. cbn [argv add_v]. rewrite Hargv.
  replace (Z.to_nat (i + 1)) with (S (S (Z.to_nat (i - 1)))) by lia.
  by replace (Z.to_nat i) with (S (Z.to_nat (i - 1))) by lia.
Qed.

Lemma quiet_eq_refl s : quiet_eq s s.
Proof. by repeat split. Qed.

Lemma same_bind {A B} (m1 m2 : M A) (k1 k2 : A -> M B) s1 s2 :
  same_outcome (m1 s1) (m2 s2) ->
  (forall a t1 t2, quiet_eq t1 t2 -> same_outcome (k1 a t1) (k2 a t2)) ->
  same_outcome (bind m1 k1 s1) (bind m2 k2 s2).
Proof.
  intros Hm Hk. unfold bind.
  destruct (m1 s1) as [a1 t1|t1|h1 t1], (m2 s2) as [a2 t2|t2|h2 t2];
    cbn in Hm; try done.
  destruct Hm as [-> Ht]. by apply Hk.
Qed.

Lemma blind_failure line : blind (eprint line ;;; ret 1).
Proof. repeat blind_step. Qed.

(** X18: one more [-v] on the command line changes nothing but the
    standard error: the run ends the same way, with the same exit status,
    the same files, the same standard output and the same calls to
    libpng. *)
Theorem verbose_only_logs R argv0 rest s :
  argv R = argv0 :: rest ->
  1 <= optind R ->
  same_outcome (main R s) (main (add_v R) s).
Proof.
  intros Hargv Hopt.
  assert (Hlen : length (argv (add_v R)) = S (length (argv R)))
    by (cbn [argv add_v]; by rewrite Hargv).
  unfold main. apply same_bind.
  { cbn [getopt_returns add_v option_loop]. rewrite decide_True by done.
    unfold bind at 1, modify. rewrite (option_loop_add_v R argv0 rest) by done.
    apply blind_option_loop. by repeat split. }
  intros [code|] t1 t2 Ht; [done|].
  change (optind (add_v R)) with (optind R + 1).
  destruct (decide (optind R = Z.of_nat (length (argv R)) - 2)) as [Hind|Hind].
  2:{ rewrite decide_False by lia. by apply blind_failure. }
  rewrite decide_True by lia.
  apply same_bind.
  { unfold arg. rewrite !decide_True by lia.
    rewrite (argv_add_v R argv0 rest (optind R)) by done.
    by destruct (argv R !! Z.to_nat (optind R)). }
  clear t1 t2 Ht. intros in_filename t1 t2 Ht.
  apply same_bind.
  { unfold arg. rewrite !decide_True by lia.
    rewrite (argv_add_v R argv0 rest (optind R + 1)) by (done || lia).
    by destruct (argv R !! Z.to_nat (optind R + 1)). }
  clear t1 t2 Ht. intros output_base t1 t2 Ht.
  change (malloc_filename_ok (add_v R)) with (malloc_filename_ok R).
  destruct (malloc_filename_ok R); cbn [negb]; [|by apply blind_failure].
  apply same_bind; [by apply blind_dbgprintf|].
  clear t1 t2 Ht. intros [] t1 t2 Ht.
  change (DGifOpenFileHandle (add_v R)) with (DGifOpenFileHandle R).
  change (DGifOpenFileName (add_v R)) with (DGifOpenFileName R).
  destruct (if decide (in_filename = "-") then DGifOpenFileHandle R
            else DGifOpenFileName R in_filename) as [gif|];
    [|by apply blind_failure].
  change (GifSplitterOpen (add_v R)) with (GifSplitterOpen R).
  destruct (GifSplitterOpen R gif) as [handle|]; [|by apply blind_failure].
  change (malloc_rows (add_v R) gif) with (malloc_rows R gif).
  destruct (malloc_rows R gif) as [rows|]; [|by apply blind_failure].
  apply same_bind.
  { apply blind_modify; [quiet_fields | done]. }
  clear t1 t2 Ht. intros [] t1 t2 Ht.
  rewrite split_frames_add_v. by apply blind_split_frames.
Qed.

Lemma verbose_only_logs_witness :
  same_outcome (main Samples.five_then_errors (initial_state ∅))
    (main (add_v Samples.five_then_errors) (initial_state ∅)).
Proof.
  apply (verbose_only_logs Samples.five_then_errors "gifsplit"
           ["in.gif"; "out"] (initial_state ∅)).
  - reflexivity.
  - vm_compute. discriminate.
Defined.

(** With [-v] the five-frame run says what it does on the standard error,
    and the rest is as without. *)
Example verbose_run_sample :
  exists s',
    main (add_v Samples.five_then_errors) (initial_state ∅) = Ret 1 s' /\
    verbose s' = true /\
    length (stderr s') = 7%nat /\
    stderr s' !! 0%nat = Some ("Opening in.gif..." +:+ LF) /\
    stderr s' !! 1%nat
      = Some ("Read frame 0 (truecolor=0, cmap=0)" +:+ LF) /\
    length (stdout s') = 5%nat.
Proof.
  eexists. split; [vm_compute; reflexivity|].
  repeat split; vm_compute; reflexivity.
Qed.
